(** * YaMDb: the data model and the serializer validation rules

    A shallow embedding of [api_yamdb/reviews/models.py] and
    [api_yamdb/api/serializers.py].

    The two files are declarative: what they do is fixed by the framework
    that reads the declarations.  The development is therefore layered.

    - [Py]: the Python values the validation methods receive, with the
      exceptions they raise and the few built-ins they call.
    - [Django]: the part of the ORM the models rely on ([on_delete]
      handlers, [UniqueConstraint], validators, [Avg],
      [get_object_or_404]).
    - [Drf]: the part of the serializer machinery the serializers rely on
      (field validation, [validate_<field>] dispatch, read-only fields,
      [UniqueValidator], [UniqueTogetherValidator], [save]).
    - [Category] ... [Comment], [DB]: the models and the tables.
    - [UserSerializer] ... [ReviewSerializer]: the serializers.

    Numbers are [Z]; the average of a column is an exact rational [Q]
    (the ORM returns the nearest float).  Strings are byte strings;
    [str.lower] and [str.strip] act on their ASCII range. *)

From Stdlib Require Import ZArith List String Ascii Bool Lia QArith.
From Stdlib Require Import Permutation.
From Stdlib Require Import DecimalString DecimalZ DecimalPos.
Import ListNotations.
Open Scope string_scope.
Open Scope Z_scope.

(* ================================================================== *)
(** ** Python values, exceptions and built-ins *)

Module Py.

(** A value as it appears in parsed request data and in validated data. *)
Inductive value : Type :=
| None_
| Bool (b : bool)
| Int (n : Z)
| Str (s : string).

(** The detail of a validation error: one message, or the per-field
    dictionary a serializer builds. *)
#[warnings="-register-all"]
Inductive detail : Type :=
| Msg (m : string)
| List_ (items : list detail)
| Dict (errors : list (string * detail)).

Inductive exn : Type :=
| ValidationError (d : detail)
| Http404
| TypeError
| ValueError
| AttributeError
| MultipleObjectsReturned
| IntegrityError (constraint : string).

Inductive result (A : Type) : Type :=
| Ok (a : A)
| Raise (e : exn).

Arguments Ok {A} a.
Arguments Raise {A} e.

Definition bind {A B} (m : result A) (k : A -> result B) : result B :=
  match m with
  | Ok a => k a
  | Raise e => Raise e
  end.

(** A nullable column read as a value. *)
Definition opt_int (o : option Z) : value :=
  match o with Some n => Int n | None => None_ end.

Definition opt_str (o : option string) : value :=
  match o with Some s => Str s | None => None_ end.

(** [bool] is a subclass of [int]; nothing else is a number here. *)
Definition as_number (v : value) : option Z :=
  match v with
  | Int n => Some n
  | Bool b => Some (if b then 1 else 0)
  | _ => None
  end.

(** [a < b] and [a > b]: numbers with numbers, strings with strings,
    [TypeError] otherwise (in particular when one side is [None]). *)
Definition lt (a b : value) : result bool :=
  match as_number a, as_number b with
  | Some x, Some y => Ok (x <? y)
  | _, _ =>
      match a, b with
      | Str s, Str t => Ok (String.ltb s t)
      | _, _ => Raise TypeError
      end
  end.

Definition gt (a b : value) : result bool := lt b a.

(** [a == b]. *)
Definition eqb (a b : value) : bool :=
  match as_number a, as_number b with
  | Some x, Some y => x =? y
  | _, _ =>
      match a, b with
      | None_, None_ => true
      | Str s, Str t => String.eqb s t
      | _, _ => false
      end
  end.

(** [str(v)]. *)
Definition str (v : value) : string :=
  match v with
  | None_ => "None"
  | Bool true => "True"
  | Bool false => "False"
  | Int n => NilZero.string_of_int (Z.to_int n)
  | Str s => s
  end.

Definition is_space (c : ascii) : bool :=
  let n := N_of_ascii c in
  (((9 <=? n) && (n <=? 13)) || ((28 <=? n) && (n <=? 32)))%N.

Fixpoint lstrip (s : string) : string :=
  match s with
  | EmptyString => EmptyString
  | String c s' => if is_space c then lstrip s' else s
  end.

Definition reverse (s : string) : string :=
  string_of_list_ascii (rev (list_ascii_of_string s)).

(** [s.strip()]. *)
Definition strip (s : string) : string :=
  reverse (lstrip (reverse (lstrip s))).

(** [int(s)] for a decimal literal with an optional sign, surrounded by
    white space; [None] stands for [ValueError]. *)
Definition int (s : string) : option Z :=
  match strip s with
  | String "+" digits =>
      option_map Z.of_uint (NilZero.uint_of_string digits)
  | literal => option_map Z.of_int (NilZero.int_of_string literal)
  end.

Definition lower_ascii (c : ascii) : ascii :=
  let n := N_of_ascii c in
  if ((65 <=? n) && (n <=? 90))%N then ascii_of_N (n + 32) else c.

(** [s.lower()]. *)
Fixpoint lower (s : string) : string :=
  match s with
  | EmptyString => EmptyString
  | String c s' => String (lower_ascii c) (lower s')
  end.

(** A [dict] with string keys, in insertion order. *)
Definition dict : Type := list (string * value).

Fixpoint get (k : string) (d : dict) : option value :=
  match d with
  | [] => None
  | (k', v) :: d' => if String.eqb k k' then Some v else get k d'
  end.

(** [d[k] = v]. *)
Fixpoint set (k : string) (v : value) (d : dict) : dict :=
  match d with
  | [] => [(k, v)]
  | (k', v') :: d' =>
      if String.eqb k k' then (k, v) :: d' else (k', v') :: set k v d'
  end.


End Py.

Notation "x <- m ;; k" := (Py.bind m (fun x => k))
  (at level 61, m at next level, right associativity).

Import Py.

(* ================================================================== *)
(** ** The ORM features the models rely on *)

Module Django.

(** [models.CASCADE] and [models.SET_NULL], the two handlers in use. *)
Inductive on_delete : Type :=
| CASCADE
| SET_NULL.

(** [models.UniqueConstraint(fields=..., name=...)]. *)
Record UniqueConstraint : Type := {
  fields : list string;
  name : string
}.

(** A field validator.  [MaxValueValidator] and [MinValueValidator] are
    kept as data, since the framework inspects their limits; any other
    callable is a function of the clock (the current calendar year, read
    when the validator runs) and of the value. *)
Inductive validator : Type :=
| MaxValueValidator (limit_value : Z) (message : string)
| MinValueValidator (limit_value : Z) (message : string)
| Callable (f : Z -> value -> result unit).

(** [validator(value)]: the limit validators raise when
    [value > limit_value], respectively [value < limit_value]. *)
Definition call (now : Z) (v : validator) (value : value) : result unit :=
  match v with
  | MaxValueValidator limit message =>
      c <- gt value (Int limit) ;;
      if c then Raise (ValidationError (Msg message)) else Ok tt
  | MinValueValidator limit message =>
      c <- lt value (Int limit) ;;
      if c then Raise (ValidationError (Msg message)) else Ok tt
  | Callable f => f now value
  end.

Inductive field_class : Type :=
| CharField
| TextField
| PositiveSmallIntegerField
| DateTimeField.

(** The options of a model field that decide how it validates. *)
Record Field : Type := {
  class_ : field_class;
  null : bool;
  blank : bool;
  default : option value;
  editable : bool;
  choices : list (Z * string);
  validators : list validator
}.

(** [connection.ops.integer_field_range]. *)
Definition integer_field_range (c : field_class) : option (Z * Z) :=
  match c with
  | PositiveSmallIntegerField => Some (0, 32767)
  | _ => None
  end.

Definition has_min_at_least (lo : Z) (vs : list validator) : bool :=
  existsb (fun v => match v with
                    | MinValueValidator l _ => lo <=? l
                    | _ => false
                    end) vs.

Definition has_max_at_most (hi : Z) (vs : list validator) : bool :=
  existsb (fun v => match v with
                    | MaxValueValidator l _ => l <=? hi
                    | _ => false
                    end) vs.

(** [Field.validators]: the declared validators, and for an integer
    field the range of its column unless a declared validator is at least
    as strict. *)
Definition field_validators (f : Field) : list validator :=
  match integer_field_range (class_ f) with
  | None => validators f
  | Some (lo, hi) =>
      validators f
      ++ (if has_min_at_least lo (validators f) then []
          else [MinValueValidator lo "min_value"])
      ++ (if has_max_at_most hi (validators f) then []
          else [MaxValueValidator hi "max_value"])
  end.

(** Column equality as the database sees it: [NULL] equals nothing. *)
Definition sql_eq (a b : value) : bool :=
  match a with
  | None_ => false
  | _ => eqb a b
  end.

(** Whether [row] would break the unique constraint [c] in [table]. *)
Definition violates {Row} (getattr : string -> Row -> value)
    (c : UniqueConstraint) (row : Row) (table : list Row) : bool :=
  existsb (fun other =>
             forallb (fun f => sql_eq (getattr f other) (getattr f row))
                     (fields c))
          table.

(** The database's check on a write: the first constraint broken is
    reported as an [IntegrityError]. *)
Definition check_constraints {Row} (getattr : string -> Row -> value)
    (constraints : list UniqueConstraint) (row : Row) (table : list Row)
    : result unit :=
  match find (fun c => violates getattr c row table) constraints with
  | Some c => Raise (IntegrityError (name c))
  | None => Ok tt
  end.

(** The primary key an [id=...] lookup compares with: [None] matches no
    row, a string is read as a number. *)
Definition pk_prep_value (v : option value) : result (option Z) :=
  match v with
  | None | Some None_ => Ok None
  | Some (Str s) =>
      match int s with
      | Some n => Ok (Some n)
      | None => Raise ValueError
      end
  | Some v => Ok (as_number v)
  end.

(** [get_object_or_404(Model, **lookup)] over the rows that match. *)
Definition get_object_or_404 {Row} (matching : list Row) : result Row :=
  match matching with
  | [] => Raise Http404
  | [row] => Ok row
  | _ => Raise MultipleObjectsReturned
  end.

Definition sum (l : list Z) : Z := fold_right Z.add 0 l.

(** [aggregate(Avg(column))]: SQL [AVG] skips [NULL]s and is [NULL] when
    nothing is left; otherwise the sum over the count, as a reduced
    fraction. *)
Definition not_null (column : list (option Z)) : list Z :=
  flat_map (fun v => match v with Some n => [n] | None => [] end) column.

Definition Avg (column : list (option Z)) : option Q :=
  let values := not_null column in
  match values with
  | [] => None
  | _ :: _ => Some (Qred (sum values # Pos.of_nat (List.length values)))
  end.

(** The rows a deletion reaches through one foreign key.  [fk] reads the
    key ([None] when the column is null), [deleted] holds the primary
    keys being deleted. *)
Definition references {Row} (fk : Row -> option Z) (deleted : list Z)
    (row : Row) : bool :=
  match fk row with
  | Some k => existsb (Z.eqb k) deleted
  | None => false
  end.

(** The collector's step for one foreign key: the table after the
    handler's updates, and the rows the handler adds to the deletion. *)
Definition collect {Row} (handler : on_delete) (fk : Row -> option Z)
    (set_null : Row -> Row) (deleted : list Z) (table : list Row)
    : list Row * list Row :=
  match handler with
  | CASCADE => (table, filter (references fk deleted) table)
  | SET_NULL =>
      (map (fun row => if references fk deleted row then set_null row else row)
           table, [])
  end.

End Django.

(* ================================================================== *)
(** ** The serializer machinery *)

Module Drf.

Import Django.

Inductive field_kind : Type :=
| CharField (allow_blank : bool)
| IntegerField
| ChoiceField (choices : list (Z * string))
| DateTimeField
| RelatedField (queryset : list (value * Z)).

(** A serializer field.  [RelatedField] stands for [SlugRelatedField] and
    [PrimaryKeyRelatedField]: its queryset lists the lookup value and the
    primary key of each row (empty for a read-only relation). *)
Record Field : Type := {
  field_name : string;
  kind : field_kind;
  read_only : bool;
  required : bool;
  allow_null : bool;
  default : option value;
  validators : list validator
}.

Definition fail {A} (code : string) : result A :=
  Raise (ValidationError (Msg code)).

(** [ChoiceField.choice_strings_to_values]. *)
Definition choice_strings_to_values (choices : list (Z * string))
    : list (string * Z) :=
  map (fun c => (str (Int (fst c)), fst c)) choices.

Definition find_choice (key : string) (table : list (string * Z)) : option Z :=
  option_map snd (find (fun kv => String.eqb key (fst kv)) table).

(** [field.to_internal_value(data)], for [data] that is neither missing
    nor [None].  A date is kept as the string received. *)
Definition Field_to_internal_value (f : Field) (data : value) : result value :=
  match kind f with
  | CharField _ =>
      match data with
      | Bool _ | None_ => fail "invalid"
      | _ => Ok (Str (strip (str data)))
      end
  | IntegerField =>
      match data with
      | Int n => Ok (Int n)
      | Str s =>
          if (1000 <? String.length s)%nat then fail "max_string_length"
          else match int s with
               | Some n => Ok (Int n)
               | None => fail "invalid"
               end
      | _ => fail "invalid"
      end
  | ChoiceField choices =>
      match find_choice (str data) (choice_strings_to_values choices) with
      | Some key => Ok (Int key)
      | None => fail "invalid_choice"
      end
  | DateTimeField =>
      match data with
      | Str s => Ok (Str s)
      | _ => fail "invalid"
      end
  | RelatedField queryset =>
      match find (fun row => eqb data (fst row)) queryset with
      | Some row => Ok (Int (snd row))
      | None => fail "does_not_exist"
      end
  end.

(** [Field.run_validators]: every validator runs; validation errors are
    gathered, any other exception leaves at once. *)
Fixpoint run_validators (now : Z) (vs : list validator) (v : value)
    (errors : list detail) : result unit :=
  match vs with
  | [] =>
      match errors with
      | [] => Ok tt
      | _ :: _ => Raise (ValidationError (List_ errors))
      end
  | validator :: rest =>
      match call now validator v with
      | Ok _ => run_validators now rest v errors
      | Raise (ValidationError d) => run_validators now rest v (errors ++ [d])
      | Raise e => Raise e
      end
  end.

(** What a field hands back: a value, or [SkipField]. *)
Inductive validated : Type :=
| SkipField
| Value (v : value).

Definition get_default (partial : bool) (f : Field) : validated :=
  if partial then SkipField
  else match default f with
       | Some v => Value v
       | None => SkipField
       end.

(** [CharField.run_validation] tests for the blank string first. *)
Definition blank_check (f : Field) (data : value) : option (result validated) :=
  match kind f with
  | CharField allow_blank =>
      if String.eqb (strip (str data)) ""
      then Some (if allow_blank then Ok (Value (Str "")) else fail "blank")
      else None
  | _ => None
  end.

(** [field.run_validation(data)]; [data = None] is the [empty] marker of
    a key the request does not carry. *)
Definition Field_run_validation (now : Z) (partial : bool) (f : Field)
    (data : option value) : result validated :=
  if read_only f then Ok (get_default partial f)
  else
    match data with
    | None =>
        if partial then Ok SkipField
        else if required f then fail "required"
        else Ok (get_default partial f)
    | Some data =>
        match blank_check f data with
        | Some outcome => outcome
        | None =>
            match data with
            | None_ => if allow_null f then Ok (Value None_) else fail "null"
            | _ =>
                v <- Field_to_internal_value f data ;;
                _ <- run_validators now (validators f) v [] ;;
                Ok (Value v)
            end
        end
    end.

(** A [validate_<field_name>] method of a serializer class. *)
Definition method : Type := value -> result value.

(** [getattr(self, name, None)] over the methods the class defines. *)
Fixpoint getattr (methods : list (string * method)) (name : string)
    : option method :=
  match methods with
  | [] => None
  | (n, m) :: rest => if String.eqb name n then Some m else getattr rest name
  end.

(** One turn of the loop of [Serializer.to_internal_value]: the field's
    own validation, then the [validate_<field_name>] method if the class
    has one. *)
Definition validate_field (now : Z) (partial : bool)
    (methods : list (string * method)) (f : Field) (data : dict)
    : result validated :=
  let validate_method := getattr methods ("validate_" ++ field_name f) in
  let primitive_value := get (field_name f) data in
  validated_value <- Field_run_validation now partial f primitive_value ;;
  match validated_value, validate_method with
  | Value v, Some validate_method => v' <- validate_method v ;; Ok (Value v')
  | _, _ => Ok validated_value
  end.

Fixpoint fields_to_internal_value (now : Z) (partial : bool)
    (methods : list (string * method)) (fields : list Field) (data : dict)
    (ret : dict) (errors : list (string * detail)) : result dict :=
  match fields with
  | [] =>
      match errors with
      | [] => Ok ret
      | _ :: _ => Raise (ValidationError (Dict errors))
      end
  | f :: rest =>
      match validate_field now partial methods f data with
      | Raise (ValidationError d) =>
          fields_to_internal_value now partial methods rest data ret
            (errors ++ [(field_name f, d)])
      | Raise e => Raise e
      | Ok SkipField =>
          fields_to_internal_value now partial methods rest data ret errors
      | Ok (Value v) =>
          fields_to_internal_value now partial methods rest data
            (set (field_name f) v ret) errors
      end
  end.

(** A serializer class, bound to the context of one request. *)
Record Serializer : Type := {
  fields : list Field;
  methods : list (string * method);
  Meta_validators : list (dict -> result unit);
  validate : dict -> result dict
}.

Definition writable_fields (s : Serializer) : list Field :=
  filter (fun f => negb (read_only f)) (fields s).

Definition Serializer_to_internal_value (now : Z) (partial : bool)
    (s : Serializer) (data : dict) : result dict :=
  fields_to_internal_value now partial (methods s) (writable_fields s)
    data [] [].

Fixpoint run_class_validators (vs : list (dict -> result unit))
    (attrs : dict) (errors : list detail) : result unit :=
  match vs with
  | [] =>
      match errors with
      | [] => Ok tt
      | _ :: _ => Raise (ValidationError (List_ errors))
      end
  | validator :: rest =>
      match validator attrs with
      | Ok _ => run_class_validators rest attrs errors
      | Raise (ValidationError d) =>
          run_class_validators rest attrs (errors ++ [d])
      | Raise e => Raise e
      end
  end.

Definition as_serializer_error (d : detail) : detail :=
  match d with
  | Dict _ => d
  | List_ _ => Dict [("non_field_errors", d)]
  | Msg _ => Dict [("non_field_errors", List_ [d])]
  end.

(** [Serializer.run_validation], which [is_valid] calls on the request
    data: the fields, then the class validators, then [validate]. *)
Definition Serializer_run_validation (now : Z) (partial : bool)
    (s : Serializer) (data : dict) : result dict :=
  value <- Serializer_to_internal_value now partial s data ;;
  match (_ <- run_class_validators (Meta_validators s) value [] ;;
         validate s value) with
  | Raise (ValidationError d) =>
      Raise (ValidationError (as_serializer_error d))
  | outcome => outcome
  end.


Definition first_max (vs : list validator) : option Z :=
  match find (fun v => match v with MaxValueValidator _ _ => true
                                  | _ => false end) vs with
  | Some (MaxValueValidator l _) => Some l
  | _ => None
  end.

Definition first_min (vs : list validator) : option Z :=
  match find (fun v => match v with MinValueValidator _ _ => true
                                  | _ => false end) vs with
  | Some (MinValueValidator l _) => Some l
  | _ => None
  end.

Definition is_limit (v : validator) : bool :=
  match v with
  | MaxValueValidator _ _ | MinValueValidator _ _ => true
  | Callable _ => false
  end.

Definition is_some {A} (o : option A) : bool :=
  match o with Some _ => true | None => false end.

(** [ModelSerializer.build_standard_field]: the serializer field derived
    from a model field.  A field that is not editable is read-only; a
    field with a default, [blank] or [null] is not required; [null] gives
    [allow_null]; choices give a [ChoiceField] that keeps the model's
    validators; the limits of a number become [max_value] and
    [min_value], checked after the remaining validators. *)
Definition build_standard_field (name : string) (mf : Django.Field) : Field :=
  let vs := field_validators mf in
  let required :=
    negb (is_some (Django.default mf) || blank mf || null mf) in
  let kind :=
    match choices mf, class_ mf with
    | _ :: _, _ => ChoiceField (choices mf)
    | [], PositiveSmallIntegerField => IntegerField
    | [], Django.DateTimeField => DateTimeField
    | [], _ => CharField (blank mf)
    end in
  if negb (editable mf) then
    {| field_name := name; kind := kind; read_only := true;
       required := false; allow_null := false; default := None;
       validators := [] |}
  else
    {| field_name := name; kind := kind; read_only := false;
       required := required; allow_null := null mf; default := None;
       validators :=
         match kind with
         | IntegerField =>
             filter (fun v => negb (is_limit v)) vs
             ++ match first_max vs with
                | Some l => [MaxValueValidator l "max_value"]
                | None => []
                end
             ++ match first_min vs with
                | Some l => [MinValueValidator l "min_value"]
                | None => []
                end
         | _ => vs
         end |}.

Fixpoint contains (c : ascii) (s : string) : bool :=
  match s with
  | EmptyString => false
  | String c' s' => Ascii.eqb c c' || contains c s'
  end.

(** [ProhibitNullCharactersValidator], which every [CharField] carries. *)
Definition prohibit_null_characters : validator :=
  Callable (fun _ value =>
    if contains zero (str value) then fail "null_characters_not_allowed"
    else Ok tt).

(** [serializers.CharField(validators=..., required=...)] declared on a
    serializer class. *)
Definition declared_CharField (name : string) (required : bool)
    (validators : list validator) : Field :=
  {| field_name := name; kind := CharField false; read_only := false;
     required := required; allow_null := false; default := None;
     validators := validators ++ [prohibit_null_characters] |}.

(** A relation or key declared, or derived, with [read_only=True]. *)
Definition read_only_field (name : string) (kind : field_kind) : Field :=
  {| field_name := name; kind := kind; read_only := true;
     required := false; allow_null := false; default := None;
     validators := [] |}.

(** [UniqueValidator(queryset)] on a field: the rows holding the value,
    the instance under update apart. *)
Definition UniqueValidator {Row} (pk : Row -> Z) (column : Row -> value)
    (queryset : list Row) (instance : option Row) : validator :=
  Callable (fun _ value =>
    let matching := filter (fun row => eqb (column row) value) queryset in
    let others :=
      match instance with
      | Some i => filter (fun row => negb (pk row =? pk i)) matching
      | None => matching
      end in
    match others with
    | [] => Ok tt
    | _ :: _ => fail "unique"
    end).

(** The attributes a [UniqueTogetherValidator] compares: on an update a
    field the request leaves out is read from the instance. *)
Definition attr_or_instance {Row} (getattr : string -> Row -> value)
    (instance : option Row) (f : string) (attrs : dict) : option value :=
  match get f attrs, instance with
  | Some v, _ => Some v
  | None, Some i => Some (getattr f i)
  | None, None => None
  end.

Fixpoint filter_kwargs {Row} (getattr : string -> Row -> value)
    (instance : option Row) (fields : list string) (attrs : dict)
    : option dict :=
  match fields with
  | [] => Some []
  | f :: rest =>
      match attr_or_instance getattr instance f attrs,
            filter_kwargs getattr instance rest attrs with
      | Some v, Some kw => Some ((f, v) :: kw)
      | _, _ => None
      end
  end.

(** [UniqueTogetherValidator(queryset, fields)] as a class validator. On
    a creation every field is required; the rows that agree on all the
    fields are looked up, the instance under update apart; a [None]
    among the values switches the check off. *)
Definition UniqueTogetherValidator {Row} (pk : Row -> Z)
    (getattr : string -> Row -> value) (queryset : list Row)
    (fields : list string) (instance : option Row) (attrs : dict)
    : result unit :=
  match filter_kwargs getattr instance fields attrs with
  | None => fail "required"
  | Some kw =>
      let matching :=
        filter (fun row =>
                  forallb (fun fv => eqb (getattr (fst fv) row) (snd fv)) kw)
               queryset in
      let others :=
        match instance with
        | Some i => filter (fun row => negb (pk row =? pk i)) matching
        | None => matching
        end in
      let has_none :=
        existsb (fun fv => match snd fv with None_ => true | _ => false end)
                kw in
      match others with
      | [] => Ok tt
      | _ :: _ => if has_none then Ok tt else fail "unique"
      end
  end.

End Drf.

(* ================================================================== *)
(** ** Character fields with a length and a pattern *)

Module Fields.

Import Django.

(** [MaxLengthValidator(limit)] raises when [len(value) > limit]. *)
Definition MaxLengthValidator (limit : nat) : validator :=
  Callable (fun _ value =>
    match value with
    | Str s =>
        if (limit <? String.length s)%nat then Drf.fail "max_length"
        else Ok tt
    | _ => Raise TypeError
    end).

Definition is_slug_char (c : ascii) : bool :=
  let n := N_of_ascii c in
  ((n =? 45) || ((48 <=? n) && (n <=? 57)) || ((65 <=? n) && (n <=? 90))
   || (n =? 95) || ((97 <=? n) && (n <=? 122)))%N.

Fixpoint all_chars (p : ascii -> bool) (s : string) : bool :=
  match s with
  | EmptyString => true
  | String c s' => p c && all_chars p s'
  end.

(** The end of a pattern, [$], also matches before a last newline. *)
Definition chomp (s : string) : string :=
  match reverse s with
  | String c rest => if (N_of_ascii c =? 10)%N then reverse rest else s
  | EmptyString => s
  end.

(** The [RegexValidator] a serializer [SlugField] carries, for the
    pattern [^[-a-zA-Z0-9_]+$], searched in [str(value)]. *)
Definition slug_regex : validator :=
  Callable (fun _ value =>
    let s := chomp (str value) in
    if negb (String.eqb s "") && all_chars is_slug_char s then Ok tt
    else Drf.fail "invalid").

(** The serializer field derived from [models.SlugField(unique=True)]:
    required, not blank, at most 50 characters (the default of the model
    field), unique in the table, matching the pattern. *)
Definition SlugField {Row} (name : string) (pk : Row -> Z)
    (column : Row -> string) (queryset : list Row) (instance : option Row)
    : Drf.Field :=
  {| Drf.field_name := name; Drf.kind := Drf.CharField false;
     Drf.read_only := false; Drf.required := true; Drf.allow_null := false;
     Drf.default := None;
     Drf.validators :=
       [Drf.UniqueValidator pk (fun row => Str (column row)) queryset instance;
        MaxLengthValidator 50; Drf.prohibit_null_characters; slug_regex] |}.

(** Every serializer [CharField] carries a
    [ProhibitNullCharactersValidator], after the validators it is given. *)
Definition char_field (f : Drf.Field) : Drf.Field :=
  {| Drf.field_name := Drf.field_name f; Drf.kind := Drf.kind f;
     Drf.read_only := Drf.read_only f; Drf.required := Drf.required f;
     Drf.allow_null := Drf.allow_null f; Drf.default := Drf.default f;
     Drf.validators := Drf.validators f ++ [Drf.prohibit_null_characters] |}.

End Fields.

(* ================================================================== *)
(** ** reviews/models.py *)

(** Modelled from the spec: [reviews/validators.py], which defines the
    [validate_year] the [year] column names as its validator, is not among
    the sources.  By the specification a year is rejected when it is
    greater than the current calendar year, read when the check runs. *)
Definition validate_year (now : Z) (value : value) : result unit :=
  c <- gt value (Int now) ;;
  if c then Raise (ValidationError (Msg "year")) else Ok tt.

Definition SCORE_CHOICES : list (Z * string) :=
  [(1, "1"); (2, "2"); (3, "3"); (4, "4"); (5, "5");
   (6, "6"); (7, "7"); (8, "8"); (9, "9"); (10, "10")].

Definition ADMIN : string := "admin".
Definition MODERATOR : string := "moderator".
Definition USER : string := "user".
Definition ROLES : list (string * string) :=
  [(ADMIN, "Admin"); (MODERATOR, "Moderator"); (USER, "User")].

Module Category.

Record t : Type := {
  id : Z;
  name : string;
  slug : string
}.

End Category.

Module Genre.

Record t : Type := {
  id : Z;
  name : string;
  slug : string
}.

End Genre.

Module Title.

Record t : Type := {
  id : Z;
  name : string;
  year : Z;
  description : option string;
  rating : option Z;
  genre : list Z;
  category : option Z
}.

Definition year_field : Django.Field :=
  {| Django.class_ := Django.PositiveSmallIntegerField;
     Django.null := false; Django.blank := false;
     Django.default := None; Django.editable := true;
     Django.choices := [];
     Django.validators := [Django.Callable validate_year] |}.

Definition rating_field : Django.Field :=
  {| Django.class_ := Django.PositiveSmallIntegerField;
     Django.null := true; Django.blank := true;
     Django.default := None; Django.editable := true;
     Django.choices := [];
     Django.validators :=
       [Django.MaxValueValidator 10 "Максимальная оценка - 10";
        Django.MinValueValidator 1 "Минимальная оценка - 1"] |}.

Definition category_on_delete : Django.on_delete := Django.SET_NULL.

Definition set_category (c : option Z) (x : t) : t :=
  {| id := id x; name := name x; year := year x;
     description := description x; rating := rating x;
     genre := genre x; category := c |}.


(** [getattr(title, field)] for the columns of the table. *)
Definition getattr (field : string) (x : t) : value :=
  if String.eqb field "id" then Int (id x)
  else if String.eqb field "name" then Str (name x)
  else if String.eqb field "year" then Int (year x)
  else if String.eqb field "description" then opt_str (description x)
  else if String.eqb field "rating" then opt_int (rating x)
  else if String.eqb field "category" then opt_int (category x)
  else None_.

End Title.

Module User.

Record t : Type := {
  id : Z;
  username : string;
  email : string;
  bio : option string;
  role : string;
  first_name : string;
  last_name : string;
  confirmation_code : string;
  is_staff : bool;
  is_superuser : bool
}.

Definition Meta_constraints : list Django.UniqueConstraint :=
  [{| Django.fields := ["username"; "email"]; Django.name := "unique_user" |}].

Definition is_admin (self : t) : bool :=
  String.eqb (role self) ADMIN || is_staff self || is_superuser self.

Definition is_moderator (self : t) : bool :=
  String.eqb (role self) MODERATOR.

(** [__str__]. *)
Definition str_ (self : t) : string := username self.

End User.

Module Review.

Record t : Type := {
  id : Z;
  title : Z;
  text : string;
  author : Z;
  score : option Z;
  pub_date : Z
}.

Definition title_on_delete : Django.on_delete := Django.CASCADE.
Definition author_on_delete : Django.on_delete := Django.CASCADE.

Definition text_field : Django.Field :=
  {| Django.class_ := Django.TextField;
     Django.null := false; Django.blank := false;
     Django.default := None; Django.editable := true;
     Django.choices := []; Django.validators := [] |}.

Definition score_field : Django.Field :=
  {| Django.class_ := Django.PositiveSmallIntegerField;
     Django.null := true; Django.blank := false;
     Django.default := None; Django.editable := true;
     Django.choices := SCORE_CHOICES;
     Django.validators :=
       [Django.MaxValueValidator 10 "Максимальная оценка - 10";
        Django.MinValueValidator 1 "Минимальная оценка - 1"] |}.

(** [auto_now_add=True] makes the column not editable. *)
Definition pub_date_field : Django.Field :=
  {| Django.class_ := Django.DateTimeField;
     Django.null := false; Django.blank := true;
     Django.default := None; Django.editable := false;
     Django.choices := []; Django.validators := [] |}.

Definition Meta_constraints : list Django.UniqueConstraint :=
  [{| Django.fields := ["title"; "author"]; Django.name := "unique_review" |}].

Definition getattr (field : string) (x : t) : value :=
  if String.eqb field "id" then Int (id x)
  else if String.eqb field "title" then Int (title x)
  else if String.eqb field "text" then Str (text x)
  else if String.eqb field "author" then Int (author x)
  else if String.eqb field "score" then opt_int (score x)
  else if String.eqb field "pub_date" then Int (pub_date x)
  else None_.

End Review.

Module Comment.

Record t : Type := {
  id : Z;
  review : Z;
  author : Z;
  text : string;
  pub_date : Z
}.

Definition review_on_delete : Django.on_delete := Django.CASCADE.
Definition author_on_delete : Django.on_delete := Django.CASCADE.

Definition text_field : Django.Field :=
  {| Django.class_ := Django.TextField;
     Django.null := false; Django.blank := false;
     Django.default := None; Django.editable := true;
     Django.choices := []; Django.validators := [] |}.

(** [auto_now_add=True] makes the column not editable. *)
Definition pub_date_field : Django.Field :=
  {| Django.class_ := Django.DateTimeField;
     Django.null := false; Django.blank := true;
     Django.default := None; Django.editable := false;
     Django.choices := []; Django.validators := [] |}.

End Comment.

(* ================================================================== *)
(** ** The tables, deletion and creation *)

Module DB.

Record t : Type := {
  categories : list Category.t;
  genres : list Genre.t;
  titles : list Title.t;
  users : list User.t;
  reviews : list Review.t;
  comments : list Comment.t
}.

Definition with_categories (l : list Category.t) (db : t) : t :=
  {| categories := l; genres := genres db; titles := titles db;
     users := users db; reviews := reviews db; comments := comments db |}.

Definition with_titles (l : list Title.t) (db : t) : t :=
  {| categories := categories db; genres := genres db; titles := l;
     users := users db; reviews := reviews db; comments := comments db |}.

Definition with_users (l : list User.t) (db : t) : t :=
  {| categories := categories db; genres := genres db; titles := titles db;
     users := l; reviews := reviews db; comments := comments db |}.

Definition with_reviews (l : list Review.t) (db : t) : t :=
  {| categories := categories db; genres := genres db; titles := titles db;
     users := users db; reviews := l; comments := comments db |}.

Definition with_comments (l : list Comment.t) (db : t) : t :=
  {| categories := categories db; genres := genres db; titles := titles db;
     users := users db; reviews := reviews db; comments := l |}.

Definition empty : t :=
  {| categories := []; genres := []; titles := []; users := [];
     reviews := []; comments := [] |}.

End DB.

Definition mem (k : Z) (ks : list Z) : bool := existsb (Z.eqb k) ks.

(** Deleting rows: the foreign keys that point at the table are followed
    with the handler each one declares, then the rows go.  A column that
    is not nullable has no null to take, so its [set_null] is the
    identity; no such key declares [SET_NULL]. *)
Definition delete_comments (pks : list Z) (db : DB.t) : DB.t :=
  DB.with_comments
    (filter (fun c => negb (mem (Comment.id c) pks)) (DB.comments db)) db.

Definition delete_reviews (pks : list Z) (db : DB.t) : DB.t :=
  let '(table, cascaded) :=
    Django.collect Comment.review_on_delete
      (fun c => Some (Comment.review c)) (fun c => c) pks (DB.comments db) in
  let db := delete_comments (map Comment.id cascaded)
              (DB.with_comments table db) in
  DB.with_reviews
    (filter (fun r => negb (mem (Review.id r) pks)) (DB.reviews db)) db.

Definition delete_titles (pks : list Z) (db : DB.t) : DB.t :=
  let '(table, cascaded) :=
    Django.collect Review.title_on_delete
      (fun r => Some (Review.title r)) (fun r => r) pks (DB.reviews db) in
  let db := delete_reviews (map Review.id cascaded)
              (DB.with_reviews table db) in
  DB.with_titles
    (filter (fun x => negb (mem (Title.id x) pks)) (DB.titles db)) db.

Definition delete_users (pks : list Z) (db : DB.t) : DB.t :=
  let '(table, cascaded) :=
    Django.collect Review.author_on_delete
      (fun r => Some (Review.author r)) (fun r => r) pks (DB.reviews db) in
  let db := delete_reviews (map Review.id cascaded)
              (DB.with_reviews table db) in
  let '(table, cascaded) :=
    Django.collect Comment.author_on_delete
      (fun c => Some (Comment.author c)) (fun c => c) pks (DB.comments db) in
  let db := delete_comments (map Comment.id cascaded)
              (DB.with_comments table db) in
  DB.with_users
    (filter (fun u => negb (mem (User.id u) pks)) (DB.users db)) db.

Definition delete_categories (pks : list Z) (db : DB.t) : DB.t :=
  let '(table, cascaded) :=
    Django.collect Title.category_on_delete
      Title.category (Title.set_category None) pks (DB.titles db) in
  let db := delete_titles (map Title.id cascaded) (DB.with_titles table db) in
  DB.with_categories
    (filter (fun c => negb (mem (Category.id c) pks)) (DB.categories db)) db.

(** [category.delete()], [title.delete()], [review.delete()] and
    [user.delete()]. *)
Definition delete_category (pk : Z) : DB.t -> DB.t := delete_categories [pk].
Definition delete_title (pk : Z) : DB.t -> DB.t := delete_titles [pk].
Definition delete_review (pk : Z) : DB.t -> DB.t := delete_reviews [pk].
Definition delete_user (pk : Z) : DB.t -> DB.t := delete_users [pk].

(** The [INSERT] of a review: the constraints of [Review.Meta] are
    checked by the database. *)
Definition insert_review (row : Review.t) (db : DB.t) : result DB.t :=
  _ <- Django.check_constraints Review.getattr Review.Meta_constraints
         row (DB.reviews db) ;;
  Ok (DB.with_reviews (DB.reviews db ++ [row]) db).



(* ================================================================== *)
(** ** api/serializers.py *)

(** What a serializer reads from [self.context['request']]: the method,
    the acting user ([None] for [AnonymousUser]), the keyword arguments
    of the route and the request data. *)
Record Request : Type := {
  method : string;
  user : option User.t;
  kwargs : dict;
  data : dict
}.

(** [str(request.user)]. *)
Definition user_str (u : option User.t) : string :=
  match u with
  | Some u => User.str_ u
  | None => "AnonymousUser"
  end.

Module UserSerializer.

Definition username (db : DB.t) (instance : option User.t) : Drf.Field :=
  Drf.declared_CharField "username" true
    [Drf.UniqueValidator User.id (fun u => Str (User.username u))
       (DB.users db) instance].

(** The class defines no [validate_<field>] method. *)
Definition methods : list (string * Drf.method) := [].

End UserSerializer.

Module RegisterDataSerializer.

Definition username (db : DB.t) (instance : option User.t) : Drf.Field :=
  Drf.declared_CharField "username" true
    [Drf.UniqueValidator User.id (fun u => Str (User.username u))
       (DB.users db) instance].

(** [VALIDATE_NAME] is read from the settings, which are not among the
    sources: it is an argument. *)
Definition validate_username (VALIDATE_NAME : string) (value : value)
    : result Py.value :=
  match value with
  | Str s =>
      if String.eqb (lower s) VALIDATE_NAME then
        Raise (ValidationError
                 (Msg ("Username " ++ VALIDATE_NAME ++ " is not valid")))
      else Ok value
  | _ => Raise AttributeError
  end.

Definition methods (VALIDATE_NAME : string) : list (string * Drf.method) :=
  [("validate_username", validate_username VALIDATE_NAME)].

End RegisterDataSerializer.

Module TitleSerializer.

(** [now] is [datetime.datetime.now().year], read when the method runs. *)
Definition validator_year (now : Z) (value : value) : result Py.value :=
  c <- gt value (Int now) ;;
  if c then Raise (ValidationError (Msg "%(value)s is not a correcrt year!!!"))
  else Ok value.

Definition validate_rating (value : value) : result Py.value :=
  c1 <- lt value (Int 1) ;;
  c2 <- (if c1 then Ok true else gt value (Int 10)) ;;
  if c2 then Raise (ValidationError (Msg "Недопустимое значение!"))
  else Ok value.

Definition year : Drf.Field :=
  Drf.build_standard_field "year" Title.year_field.

Definition rating : Drf.Field :=
  Drf.build_standard_field "rating" Title.rating_field.

Definition methods (now : Z) : list (string * Drf.method) :=
  [("validator_year", validator_year now);
   ("validate_rating", validate_rating)].

Definition Meta_validators (db : DB.t) (instance : option Title.t)
    : list (dict -> result unit) :=
  [Drf.UniqueTogetherValidator Title.id Title.getattr (DB.titles db)
     ["name"; "year"] instance].

(** [SlugRelatedField(queryset=Category.objects.all(),
    slug_field='slug')]. *)
Definition category (db : DB.t) : Drf.Field :=
  {| Drf.field_name := "category";
     Drf.kind :=
       Drf.RelatedField
         (map (fun c => (Str (Category.slug c), Category.id c))
              (DB.categories db));
     Drf.read_only := false; Drf.required := true; Drf.allow_null := false;
     Drf.default := None; Drf.validators := [] |}.

End TitleSerializer.

Module TitleReadSerializer.

(** [Review.objects.filter(title=obj.id).aggregate(Avg('score'))] and
    its ['score__avg']. *)
Definition get_rating (db : DB.t) (obj : Title.t) : option Q :=
  let rating :=
    Django.Avg
      (map Review.score
           (filter (fun r => Review.title r =? Title.id obj) (DB.reviews db)))
  in rating.

End TitleReadSerializer.

Module ReviewSerializer.

(** The two declared fields are read-only relations; the others are
    derived from the model. *)
Definition author : Drf.Field :=
  Drf.read_only_field "author" (Drf.RelatedField []).

Definition title : Drf.Field :=
  Drf.read_only_field "title" (Drf.RelatedField []).

Definition text : Drf.Field :=
  Drf.build_standard_field "text" Review.text_field.

Definition pub_date : Drf.Field :=
  Drf.build_standard_field "pub_date" Review.pub_date_field.

Definition score : Drf.Field :=
  Drf.build_standard_field "score" Review.score_field.

Definition fields : list Drf.Field :=
  [Drf.read_only_field "id" Drf.IntegerField;
   text; author; pub_date; title; score].

Definition validate (request : Request) (db : DB.t) (data : dict)
    : result dict :=
  if negb (String.eqb (method request) "POST") then Ok data
  else
    let title_id := get "title_id" (kwargs request) in
    let user := user request in
    author <- Django.get_object_or_404
                (filter (fun u => String.eqb (User.username u) (user_str user))
                        (DB.users db)) ;;
    pk <- Django.pk_prep_value title_id ;;
    title <- Django.get_object_or_404
               (filter (fun x => match pk with
                                 | Some k => Title.id x =? k
                                 | None => false
                                 end)
                       (DB.titles db)) ;;
    if existsb (fun r => (Review.title r =? Title.id title)
                         && (Review.author r =? User.id author))
               (DB.reviews db)
    then Raise (ValidationError (Msg "Можно написать только одно ревью."))
    else Ok data.

Definition validate_score (value : value) : result Py.value :=
  c1 <- lt value (Int 1) ;;
  c2 <- (if c1 then Ok true else gt value (Int 10)) ;;
  if c2 then Raise (ValidationError (Msg "Недопустимое значение!"))
  else Ok value.

Definition methods : list (string * Drf.method) :=
  [("validate_score", validate_score)].

(** The serializer bound to a request.  The unique constraint of the
    model names two read-only fields, so no class validator is derived
    from it. *)
Definition serializer (request : Request) (db : DB.t) : Drf.Serializer :=
  {| Drf.fields := fields;
     Drf.methods := methods;
     Drf.Meta_validators := [];
     Drf.validate := validate request db |}.

(** [is_valid] on the data of the request; an update through [PATCH] is
    partial. *)
Definition is_valid (now : Z) (request : Request) (db : DB.t) : result dict :=
  Drf.Serializer_run_validation now (String.eqb (method request) "PATCH")
    (serializer request db) (data request).

End ReviewSerializer.

Module CommentSerializer.

Definition author : Drf.Field :=
  Drf.read_only_field "author" (Drf.RelatedField []).

Definition review : Drf.Field :=
  Drf.read_only_field "review" (Drf.RelatedField []).

Definition text : Drf.Field :=
  Fields.char_field (Drf.build_standard_field "text" Comment.text_field).

Definition pub_date : Drf.Field :=
  Drf.build_standard_field "pub_date" Comment.pub_date_field.

Definition fields : list Drf.Field :=
  [Drf.read_only_field "id" Drf.IntegerField;
   text; author; pub_date; review].

(** The class defines neither [validate] nor a [validate_<field>]
    method: [validate] is the one inherited, which returns the data. *)
Definition serializer : Drf.Serializer :=
  {| Drf.fields := fields;
     Drf.methods := [];
     Drf.Meta_validators := [];
     Drf.validate := fun attrs => Ok attrs |}.

Definition is_valid (now : Z) (request : Request) : result dict :=
  Drf.Serializer_run_validation now (String.eqb (method request) "PATCH")
    serializer (data request).

End CommentSerializer.

Module TokenSerializer.

Definition username : Drf.Field :=
  Drf.declared_CharField "username" true [].

Definition confirmation_code : Drf.Field :=
  Drf.declared_CharField "confirmation_code" true [].

Definition serializer : Drf.Serializer :=
  {| Drf.fields := [username; confirmation_code];
     Drf.methods := [];
     Drf.Meta_validators := [];
     Drf.validate := fun attrs => Ok attrs |}.

Definition is_valid (now : Z) (data : dict) : result dict :=
  Drf.Serializer_run_validation now false serializer data.

End TokenSerializer.

Module CategorySerializer.

Definition slug (db : DB.t) (instance : option Category.t) : Drf.Field :=
  Fields.SlugField "slug" Category.id Category.slug (DB.categories db)
    instance.

Definition methods : list (string * Drf.method) := [].

End CategorySerializer.

Module GenreSerializer.

Definition slug (db : DB.t) (instance : option Genre.t) : Drf.Field :=
  Fields.SlugField "slug" Genre.id Genre.slug (DB.genres db) instance.

Definition methods : list (string * Drf.method) := [].

End GenreSerializer.



(* ================================================================== *)
(** ** States, and the rows used in the examples *)

(** The reviews that reference a title, and the scores they carry. *)
Definition reviews_of (db : DB.t) (title : Z) : list Review.t :=
  filter (fun r => Review.title r =? title) (DB.reviews db).

Definition scores_of (db : DB.t) (title : Z) : list Z :=
  Django.not_null (map Review.score (reviews_of db title)).

(** The reviews a user wrote, and the comments that are left when the
    reviews of the keys [pks] go. *)
Definition reviews_by (db : DB.t) (author : Z) : list Review.t :=
  filter (Django.references (fun r => Some (Review.author r)) [author])
         (DB.reviews db).

Definition comments_off (db : DB.t) (pks : list Z) : list Comment.t :=
  filter (fun c =>
            negb (mem (Comment.id c)
                    (map Comment.id
                       (filter (Django.references
                                  (fun c => Some (Comment.review c)) pks)
                               (DB.comments db)))))
         (DB.comments db).

(** Every foreign key that is set names a row of its table. *)
Definition referential_integrity (db : DB.t) : Prop :=
  Forall (fun x => match Title.category x with
                   | Some k => mem k (map Category.id (DB.categories db)) = true
                   | None => True
                   end)
         (DB.titles db)
  /\ Forall (fun r => mem (Review.title r) (map Title.id (DB.titles db)) = true
                      /\ mem (Review.author r) (map User.id (DB.users db))
                         = true)
            (DB.reviews db)
  /\ Forall (fun c => mem (Comment.review c) (map Review.id (DB.reviews db))
                      = true
                      /\ mem (Comment.author c) (map User.id (DB.users db))
                         = true)
            (DB.comments db).

(** No two reviews share their title and author. *)
Definition unique_review (db : DB.t) : Prop :=
  NoDup (map (fun r => (Review.title r, Review.author r)) (DB.reviews db)).


(** What can happen to the tables: a review is inserted, a row is
    deleted with what hangs on it, or something leaves the reviews as
    they are. *)
Inductive step : DB.t -> DB.t -> Prop :=
| step_insert row db db' : insert_review row db = Ok db' -> step db db'
| step_delete_review pk db : step db (delete_review pk db)
| step_delete_title pk db : step db (delete_title pk db)
| step_delete_user pk db : step db (delete_user pk db)
| step_delete_category pk db : step db (delete_category pk db)
| step_other db db' : DB.reviews db' = DB.reviews db -> step db db'.

Inductive steps : DB.t -> DB.t -> Prop :=
| steps_refl db : steps db db
| steps_next db db' db'' : steps db db' -> step db' db'' -> steps db db''.

Module Sample.

Definition bob : User.t :=
  {| User.id := 1; User.username := "bob"; User.email := "bob@example.org";
     User.bio := None; User.role := USER; User.first_name := "";
     User.last_name := ""; User.confirmation_code := "";
     User.is_staff := false; User.is_superuser := false |}.

Definition eve : User.t :=
  {| User.id := 2; User.username := "eve"; User.email := "eve@example.org";
     User.bio := None; User.role := MODERATOR; User.first_name := "";
     User.last_name := ""; User.confirmation_code := "";
     User.is_staff := true; User.is_superuser := false |}.

Definition drama : Category.t :=
  {| Category.id := 3; Category.name := "Drama"; Category.slug := "drama" |}.

Definition dune : Title.t :=
  {| Title.id := 7; Title.name := "Dune"; Title.year := 1965;
     Title.description := None; Title.rating := None; Title.genre := [];
     Title.category := Some 3 |}.

Definition solaris : Title.t :=
  {| Title.id := 8; Title.name := "Solaris"; Title.year := 1961;
     Title.description := None; Title.rating := Some 1; Title.genre := [];
     Title.category := None |}.

Definition remake : Title.t :=
  {| Title.id := 9; Title.name := "Dune"; Title.year := 1984;
     Title.description := None; Title.rating := None; Title.genre := [];
     Title.category := Some 3 |}.

Definition review (pk title author : Z) (score : option Z) : Review.t :=
  {| Review.id := pk; Review.title := title; Review.text := "text";
     Review.author := author; Review.score := score; Review.pub_date := 0 |}.

Definition comment (pk review author : Z) : Comment.t :=
  {| Comment.id := pk; Comment.review := review; Comment.author := author;
     Comment.text := "text"; Comment.pub_date := 0 |}.

(** Two users, three titles, a category, no review yet. *)
Definition db : DB.t :=
  {| DB.categories := [drama]; DB.genres := [];
     DB.titles := [dune; solaris; remake]; DB.users := [bob; eve];
     DB.reviews := []; DB.comments := [] |}.

(** The same with reviews of Dune by both users and one comment. *)
Definition db_reviewed : DB.t :=
  DB.with_comments [comment 1 1 2]
    (DB.with_reviews [review 1 7 1 (Some 8); review 2 7 2 (Some 10)] db).

(** A request by bob on the reviews of Dune. *)
Definition request (method : string) (data : dict) : Request :=
  {| method := method; user := Some bob;
     kwargs := [("title_id", Str "7")]; data := data |}.

End Sample.

(* ================================================================== *)
(** * Properties *)

(* ================================================================== *)
(** ** User.is_admin *)

(** C10. A user is an admin exactly when the role is ['admin'] or the
    staff flag or the superuser flag is set; so a user whose role is
    ['user'] or ['moderator'] is an admin as soon as one flag is set. *)
Theorem is_admin_iff_role_or_flag :
  (forall u : User.t,
      User.is_admin u = true <->
      User.role u = ADMIN \/ User.is_staff u = true
      \/ User.is_superuser u = true)
  /\ (forall u : User.t,
         User.role u = USER \/ User.role u = MODERATOR ->
         User.is_staff u = true \/ User.is_superuser u = true ->
         User.is_admin u = true).
Proof.
  assert (iff_ : forall u : User.t,
             User.is_admin u = true <->
             User.role u = ADMIN \/ User.is_staff u = true
             \/ User.is_superuser u = true).
  { intro u. unfold User.is_admin.
    rewrite !orb_true_iff, String.eqb_eq. tauto. }
  split; [exact iff_ |].
  intros u _ flags. apply iff_. tauto.
Qed.

Lemma is_admin_iff_role_or_flag_witness :
  User.is_admin Sample.eve = true /\ User.role Sample.eve = MODERATOR.
Proof.
  split; [| reflexivity].
  apply (proj2 is_admin_iff_role_or_flag Sample.eve).
  - right. reflexivity.
  - left. reflexivity.
Defined.

(* ================================================================== *)
(** ** TitleReadSerializer.get_rating *)

Lemma of_nat_length_pos {A} (x : A) (l : list A) :
  Z.pos (Pos.of_nat (List.length (x :: l))) = Z.of_nat (List.length (x :: l)).
Proof.
  cbn [List.length]. rewrite <- Pos.of_nat_succ, Zpos_P_of_succ_nat. lia.
Qed.

Lemma Avg_empty (column : list (option Z)) :
  Django.not_null column = [] -> Django.Avg column = None.
Proof. unfold Django.Avg. intros ->. reflexivity. Qed.





(* ================================================================== *)
(** ** Deletion *)

Lemma filter_none {A} (p : A -> bool) (l : list A) :
  (forall x, p x = false) -> filter p l = [].
Proof.
  intro none. induction l as [| x l IH]; [reflexivity |].
  cbn. now rewrite none.
Qed.

Lemma filter_all {A} (p : A -> bool) (l : list A) :
  (forall x, p x = true) -> filter p l = l.
Proof.
  intro all. induction l as [| x l IH]; [reflexivity |].
  cbn. now rewrite all, IH.
Qed.

Lemma mem_In (k : Z) (ks : list Z) : mem k ks = true <-> In k ks.
Proof.
  unfold mem. rewrite existsb_exists. split.
  - intros (x & inx & e). apply Z.eqb_eq in e. now subst.
  - intro ink. exists k. split; [assumption | apply Z.eqb_refl].
Qed.

Lemma mem_singleton (k pk : Z) : mem k [pk] = (k =? pk).
Proof. unfold mem. cbn. apply orb_false_r. Qed.

(** Deleting, by key, the rows a predicate selects leaves no row that the
    predicate selects. *)
Lemma cascade_leaves_none {Row} (pk : Row -> Z) (p : Row -> bool)
    (table : list Row) :
  Forall (fun row => p row = false)
    (filter (fun row => negb (mem (pk row) (map pk (filter p table)))) table).
Proof.
  apply Forall_forall. intros row inrow.
  apply filter_In in inrow as (inrow & kept).
  destruct (p row) eqn:selected; [| reflexivity].
  apply negb_true_iff in kept.
  assert (mem (pk row) (map pk (filter p table)) = true) as gone.
  { apply mem_In, in_map, filter_In. now split. }
  congruence.
Qed.

Lemma references_singleton {Row} (fk : Row -> option Z) (pk : Z) (row : Row) :
  Django.references fk [pk] row = false <-> fk row <> Some pk.
Proof.
  unfold Django.references. destruct (fk row) as [k |]; [| easy].
  cbn. rewrite orb_false_r. rewrite Z.eqb_neq. split; congruence.
Qed.

Lemma reviews_of_references (db : DB.t) (pk : Z) :
  filter (Django.references (fun r => Some (Review.title r)) [pk])
         (DB.reviews db)
  = reviews_of db pk.
Proof.
  unfold reviews_of. apply filter_ext. intro r.
  unfold Django.references. cbn. apply orb_false_r.
Qed.

Lemma delete_reviews_reviews (pks : list Z) (db : DB.t) :
  DB.reviews (delete_reviews pks db)
  = filter (fun r => negb (mem (Review.id r) pks)) (DB.reviews db).
Proof. reflexivity. Qed.

Lemma delete_reviews_comments (pks : list Z) (db : DB.t) :
  DB.comments (delete_reviews pks db)
  = filter (fun c =>
              negb (mem (Comment.id c)
                      (map Comment.id
                         (filter (Django.references
                                    (fun c => Some (Comment.review c)) pks)
                                 (DB.comments db)))))
           (DB.comments db).
Proof. reflexivity. Qed.

Lemma delete_reviews_nil (db : DB.t) : delete_reviews [] db = db.
Proof.
  unfold delete_reviews, delete_comments, Django.collect,
    Comment.review_on_delete.
  cbn [DB.comments DB.with_comments DB.reviews DB.with_reviews
       DB.categories DB.genres DB.titles DB.users].
  rewrite (filter_none (Django.references _ [])) by reflexivity.
  rewrite !filter_all by reflexivity.
  now destruct db.
Qed.

Lemma delete_titles_nil (db : DB.t) : delete_titles [] db = db.
Proof.
  unfold delete_titles, Django.collect, Review.title_on_delete.
  rewrite (filter_none (Django.references _ [])) by reflexivity.
  cbn [map]. rewrite delete_reviews_nil.
  cbn [DB.comments DB.with_comments DB.reviews DB.with_reviews
       DB.categories DB.genres DB.titles DB.users DB.with_titles].
  rewrite filter_all by reflexivity.
  now destruct db.
Qed.

Lemma delete_category_titles (pk : Z) (db : DB.t) :
  DB.titles (delete_category pk db)
  = map (fun x => if Django.references Title.category [pk] x
                  then Title.set_category None x else x)
        (DB.titles db).
Proof.
  unfold delete_category, delete_categories, Django.collect,
    Title.category_on_delete.
  cbn [map]. rewrite delete_titles_nil. reflexivity.
Qed.

Lemma delete_category_reviews (pk : Z) (db : DB.t) :
  DB.reviews (delete_category pk db) = DB.reviews db.
Proof.
  unfold delete_category, delete_categories, Django.collect,
    Title.category_on_delete.
  cbn [map]. now rewrite delete_titles_nil.
Qed.

Lemma delete_category_comments (pk : Z) (db : DB.t) :
  DB.comments (delete_category pk db) = DB.comments db.
Proof.
  unfold delete_category, delete_categories, Django.collect,
    Title.category_on_delete.
  cbn [map]. now rewrite delete_titles_nil.
Qed.

(** C7. Deleting a category sets the category of the titles that
    reference it to null and deletes no title; deleting a title deletes
    the reviews that reference it, with their comments; deleting a review
    deletes the comments that reference it; deleting a user deletes the
    user's reviews and comments. *)
Theorem deletion_semantics (db : DB.t) (pk : Z) :
  (map Title.id (DB.titles (delete_category pk db)) = map Title.id (DB.titles db)
   /\ DB.titles (delete_category pk db)
      = map (fun x => if Django.references Title.category [pk] x
                      then Title.set_category None x else x)
            (DB.titles db)
   /\ Forall (fun x => Title.category x <> Some pk)
             (DB.titles (delete_category pk db))
   /\ DB.reviews (delete_category pk db) = DB.reviews db
   /\ DB.comments (delete_category pk db) = DB.comments db)
  /\ (Forall (fun r => Review.title r <> pk) (DB.reviews (delete_title pk db))
      /\ DB.reviews (delete_title pk db)
         = filter (fun r => negb (mem (Review.id r)
                                    (map Review.id (reviews_of db pk))))
                  (DB.reviews db)
      /\ Forall (fun c => mem (Comment.review c)
                            (map Review.id (reviews_of db pk)) = false)
                (DB.comments (delete_title pk db))
      /\ DB.titles (delete_title pk db)
         = filter (fun x => negb (Title.id x =? pk)) (DB.titles db))
  /\ (Forall (fun c => Comment.review c <> pk)
             (DB.comments (delete_review pk db))
      /\ DB.reviews (delete_review pk db)
         = filter (fun r => negb (Review.id r =? pk)) (DB.reviews db)
      /\ DB.titles (delete_review pk db) = DB.titles db)
  /\ (Forall (fun r => Review.author r <> pk) (DB.reviews (delete_user pk db))
      /\ Forall (fun c => Comment.author c <> pk)
                (DB.comments (delete_user pk db))).
Proof.
  split; [| split; [| split]].
  - (* category *)
    pose proof (delete_category_titles pk db) as titles.
    split; [| split; [| split; [| split]]].
    + rewrite titles, map_map. apply map_ext. intro x.
      now destruct (Django.references Title.category [pk] x).
    + exact titles.
    + rewrite titles. apply Forall_forall. intros x inx.
      apply in_map_iff in inx as (y & <- & _).
      destruct (Django.references Title.category [pk] y) eqn:refs.
      * easy.
      * now apply references_singleton in refs.
    + apply delete_category_reviews.
    + apply delete_category_comments.
  - (* title *)
    assert (DB.reviews (delete_title pk db)
            = filter (fun r => negb (mem (Review.id r)
                                       (map Review.id (reviews_of db pk))))
                     (DB.reviews db)) as reviews.
    { unfold delete_title, delete_titles, Django.collect,
        Review.title_on_delete, reviews_of.
      cbn [DB.reviews DB.with_titles]. rewrite delete_reviews_reviews.
      cbn [DB.reviews DB.with_reviews].
      now rewrite reviews_of_references. }
    split; [| split; [| split]].
    + rewrite reviews. unfold reviews_of.
      eapply Forall_impl;
        [| apply (cascade_leaves_none Review.id
                    (fun r => Review.title r =? pk))].
      cbn. intros r. apply Z.eqb_neq.
    + exact reviews.
    + unfold delete_title, delete_titles, Django.collect,
        Review.title_on_delete.
      cbn [DB.comments DB.with_titles]. rewrite delete_reviews_comments.
      cbn [DB.comments DB.with_reviews].
      rewrite reviews_of_references.
      eapply Forall_impl;
        [| apply (cascade_leaves_none Comment.id
                    (Django.references (fun c => Some (Comment.review c))
                       (map Review.id (reviews_of db pk))))].
      cbn. intros c. unfold Django.references, mem. easy.
    + unfold delete_title, delete_titles. cbn.
      apply filter_ext. intro x. now rewrite orb_false_r.
  - (* review *)
    split; [| split].
    + unfold delete_review. rewrite delete_reviews_comments.
      eapply Forall_impl;
        [| apply (cascade_leaves_none Comment.id
                    (Django.references (fun c => Some (Comment.review c))
                       [pk]))].
      intros c refs. apply references_singleton in refs.
      cbn in refs. congruence.
    + unfold delete_review. rewrite delete_reviews_reviews.
      apply filter_ext. intro r. now rewrite mem_singleton.
    + reflexivity.
  - (* user *)
    split.
    + unfold delete_user, delete_users, Django.collect,
        Review.author_on_delete, Comment.author_on_delete.
      cbn [DB.reviews DB.with_users DB.with_comments delete_comments].
      rewrite delete_reviews_reviews. cbn [DB.reviews DB.with_reviews].
      eapply Forall_impl;
        [| apply (cascade_leaves_none Review.id
                    (Django.references (fun r => Some (Review.author r))
                       [pk]))].
      intros r refs. apply references_singleton in refs.
      cbn in refs. congruence.
    + unfold delete_user, delete_users, Django.collect,
        Review.author_on_delete, Comment.author_on_delete.
      cbn [DB.comments DB.with_users DB.with_comments delete_comments].
      eapply Forall_impl;
        [| apply (cascade_leaves_none Comment.id
                    (Django.references (fun c => Some (Comment.author c))
                       [pk]))].
      intros c refs. apply references_singleton in refs.
      cbn in refs. congruence.
Qed.

(* ================================================================== *)
(** ** One review per author and title *)

Lemma violates_unique_review (row : Review.t) (table : list Review.t) :
  Django.violates Review.getattr
    {| Django.fields := ["title"; "author"]; Django.name := "unique_review" |}
    row table
  = existsb (fun other => (Review.title other =? Review.title row)
                          && (Review.author other =? Review.author row))
            table.
Proof.
  unfold Django.violates. induction table as [| other table IH];
    [reflexivity |].
  cbn [existsb]. rewrite IH. f_equal.
  cbn. now rewrite andb_true_r.
Qed.

Lemma insert_review_eq (row : Review.t) (db : DB.t) :
  insert_review row db
  = if existsb (fun other => (Review.title other =? Review.title row)
                             && (Review.author other =? Review.author row))
               (DB.reviews db)
    then Raise (IntegrityError "unique_review")
    else Ok (DB.with_reviews (DB.reviews db ++ [row]) db).
Proof.
  unfold insert_review, Django.check_constraints, Review.Meta_constraints.
  cbn [find]. rewrite violates_unique_review.
  now destruct (existsb _ (DB.reviews db)).
Qed.

Lemma same_pair_exists (row : Review.t) (table : list Review.t) :
  existsb (fun other => (Review.title other =? Review.title row)
                        && (Review.author other =? Review.author row))
          table = true
  <-> In (Review.title row, Review.author row)
         (map (fun r => (Review.title r, Review.author r)) table).
Proof.
  rewrite existsb_exists, in_map_iff. split.
  - intros (r & inr & same). exists r. split; [| assumption].
    apply andb_true_iff in same as (t & a).
    apply Z.eqb_eq in t, a. congruence.
  - intros (r & same & inr). exists r. split; [assumption |].
    injection same as t a. rewrite t, a, !Z.eqb_refl. reflexivity.
Qed.

Lemma insert_review_unique (row : Review.t) (db db' : DB.t) :
  unique_review db -> insert_review row db = Ok db' -> unique_review db'.
Proof.
  unfold unique_review. intros unique. rewrite insert_review_eq.
  destruct (existsb _ (DB.reviews db)) eqn:dup; [discriminate |].
  intros [= <-]. cbn [DB.reviews DB.with_reviews].
  rewrite map_app. cbn [map].
  apply NoDup_rev in unique. rewrite <- (rev_involutive (_ ++ _)).
  apply NoDup_rev. rewrite rev_app_distr. cbn [rev app].
  constructor; [| assumption].
  rewrite <- in_rev, <- same_pair_exists. congruence.
Qed.

(** Dropping reviews keeps the pairs apart. *)
Lemma unique_review_filter (keep : Review.t -> bool) (db : DB.t) :
  unique_review db ->
  unique_review (DB.with_reviews (filter keep (DB.reviews db)) db).
Proof.
  unfold unique_review. cbn [DB.reviews DB.with_reviews].
  generalize (DB.reviews db) as table.
  intro table. induction table as [| r table IH]; intro unique.
  - exact unique.
  - cbn [map] in unique. apply NoDup_cons_iff in unique as (fresh & rest).
    cbn [filter]. destruct (keep r); [| exact (IH rest)].
    cbn [map]. apply NoDup_cons; [| exact (IH rest)].
    rewrite in_map_iff. intros (other & same & kept).
    apply filter_In in kept as (kept & _).
    apply fresh, in_map_iff. now exists other.
Qed.

Lemma step_unique (db db' : DB.t) :
  unique_review db -> step db db' -> unique_review db'.
Proof.
  intros unique st. destruct st as [row db db' inserted
                                   | pk db | pk db | pk db | pk db
                                   | db db' same].
  - eapply insert_review_unique; eassumption.
  - now apply (unique_review_filter _ db).
  - now apply (unique_review_filter _ db).
  - now apply (unique_review_filter _ db).
  - unfold unique_review. now rewrite delete_category_reviews.
  - unfold unique_review. now rewrite same.
Qed.

(** C2. Creation through [POST] of a review whose author and title
    already have one is rejected by [validate] with a validation error;
    for any other method [validate] skips the check and returns the data;
    the table itself refuses a second row for the pair; and so no
    sequence of insertions and deletions leads to two reviews for one
    pair. *)
Theorem one_review_per_author_and_title :
  (forall request db data author title pk,
      method request = "POST" ->
      Django.get_object_or_404
        (filter (fun u => String.eqb (User.username u)
                                     (user_str (user request)))
                (DB.users db)) = Ok author ->
      Django.pk_prep_value (get "title_id" (kwargs request)) = Ok (Some pk) ->
      Django.get_object_or_404
        (filter (fun x => Title.id x =? pk) (DB.titles db)) = Ok title ->
      (exists r, In r (DB.reviews db)
                 /\ Review.title r = Title.id title
                 /\ Review.author r = User.id author) ->
      ReviewSerializer.validate request db data
      = Raise (ValidationError (Msg "Можно написать только одно ревью.")))
  /\ (forall request db data,
         method request <> "POST" ->
         ReviewSerializer.validate request db data = Ok data)
  /\ (forall row db,
         (exists r, In r (DB.reviews db)
                    /\ Review.title r = Review.title row
                    /\ Review.author r = Review.author row) ->
         insert_review row db = Raise (IntegrityError "unique_review"))
  /\ (forall db db', unique_review db -> steps db db' -> unique_review db').
Proof.
  split; [| split; [| split]].
  - intros request db data author title pk post found_author prep found_title
      (r & inr & same_title & same_author).
    unfold ReviewSerializer.validate.
    rewrite post. cbn [String.eqb Ascii.eqb Bool.eqb negb].
    rewrite found_author. cbn [bind]. rewrite prep. cbn [bind].
    rewrite found_title. cbn [bind].
    replace (existsb _ (DB.reviews db)) with true; [reflexivity |].
    symmetry. apply existsb_exists. exists r. split; [assumption |].
    now rewrite same_title, same_author, !Z.eqb_refl.
  - intros request db data other. unfold ReviewSerializer.validate.
    apply String.eqb_neq in other. now rewrite other.
  - intros row db (r & inr & same_title & same_author).
    rewrite insert_review_eq.
    replace (existsb _ (DB.reviews db)) with true; [reflexivity |].
    symmetry. apply existsb_exists. exists r. split; [assumption |].
    now rewrite same_title, same_author, !Z.eqb_refl.
  - intros db db' unique reach. induction reach as [| db db' db'' _ IH st].
    + assumption.
    + eapply step_unique; [apply IH; assumption | assumption].
Qed.

Lemma one_review_per_author_and_title_witness :
  ReviewSerializer.validate (Sample.request "POST" []) Sample.db_reviewed []
  = Raise (ValidationError (Msg "Можно написать только одно ревью."))
  /\ ReviewSerializer.validate (Sample.request "PATCH" []) Sample.db_reviewed
       [("text", Str "better")]
     = Ok [("text", Str "better")]
  /\ insert_review (Sample.review 3 7 1 (Some 5)) Sample.db_reviewed
     = Raise (IntegrityError "unique_review")
  /\ unique_review (delete_user 2 Sample.db_reviewed).
Proof.
  destruct one_review_per_author_and_title
    as (duplicate & other & refused & invariant).
  split; [| split; [| split]].
  - apply (duplicate _ _ _ Sample.bob Sample.dune 7); try reflexivity.
    exists (Sample.review 1 7 1 (Some 8)).
    split; [left; reflexivity | split; reflexivity].
  - apply other. discriminate.
  - apply refused. exists (Sample.review 1 7 1 (Some 8)).
    split; [left; reflexivity | split; reflexivity].
  - apply (invariant Sample.db_reviewed).
    + unfold unique_review. cbn.
      constructor; [intros [e | []]; discriminate e |].
      constructor; [intros [] |]. constructor.
    + eapply steps_next; [apply steps_refl | apply step_delete_user].
Defined.

(* ================================================================== *)
(** ** Printing numbers, and the choices of a score *)





Lemma validate_score_int (n : Z) :
  ReviewSerializer.validate_score (Int n)
  = if (n <? 1) || (10 <? n)
    then Raise (ValidationError (Msg "Недопустимое значение!"))
    else Ok (Int n).
Proof.
  unfold ReviewSerializer.validate_score, gt, lt. cbn [as_number bind].
  now destruct (n <? 1), (10 <? n).
Qed.



(* ================================================================== *)
(** ** ReviewSerializer: the score *)

Lemma validate_score_field (now : Z) (partial : bool) (data : dict) :
  Drf.validate_field now partial ReviewSerializer.methods
    ReviewSerializer.score data
  = (validated_value <- Drf.Field_run_validation now partial
                          ReviewSerializer.score (get "score" data) ;;
     match validated_value with
     | Drf.Value v =>
         v' <- ReviewSerializer.validate_score v ;; Ok (Drf.Value v')
     | Drf.SkipField => Ok Drf.SkipField
     end).
Proof.
  unfold Drf.validate_field.
  change (Drf.field_name ReviewSerializer.score) with "score".
  change (Drf.getattr ReviewSerializer.methods ("validate_" ++ "score"))
    with (Some ReviewSerializer.validate_score).
  destruct (Drf.Field_run_validation _ _ _ _) as [[| v] |]; reflexivity.
Qed.






(* ================================================================== *)
(** ** TitleSerializer: the year *)

Lemma validator_year_int (now value : Z) :
  TitleSerializer.validator_year now (Int value)
  = if now <? value
    then Raise (ValidationError (Msg "%(value)s is not a correcrt year!!!"))
    else Ok (Int value).
Proof. reflexivity. Qed.

(** The class has no method called [validate_year]: the field is checked
    by its validators alone. *)
Lemma validate_year_field (now : Z) (partial : bool) (data : dict) :
  Drf.validate_field now partial (TitleSerializer.methods now)
    TitleSerializer.year data
  = Drf.Field_run_validation now partial TitleSerializer.year
      (get "year" data).
Proof.
  unfold Drf.validate_field.
  change (Drf.field_name TitleSerializer.year) with "year".
  change (Drf.getattr (TitleSerializer.methods now) ("validate_" ++ "year"))
    with (@None Drf.method).
  destruct (Drf.Field_run_validation _ _ _ _) as [[| v] |]; reflexivity.
Qed.

Lemma year_field_int (now : Z) (partial : bool) (value : Z) :
  Drf.Field_run_validation now partial TitleSerializer.year (Some (Int value))
  = (_ <- Drf.run_validators now
            [Django.Callable validate_year;
             Django.MaxValueValidator 32767 "max_value";
             Django.MinValueValidator 0 "min_value"]
            (Int value) [] ;;
     Ok (Drf.Value (Int value))).
Proof. reflexivity. Qed.

(** C4. A year greater than the current calendar year, read when the
    check runs, is rejected with a validation error: by the method
    [validator_year], and, through the write representation, by the
    validator of the column (the serializer never calls a method of that
    name); a year that is not greater passes the year check, and passes
    the field when it also fits the column. *)
Theorem year_not_in_the_future (now value : Z) :
  (now < value ->
   (exists d, TitleSerializer.validator_year now (Int value)
              = Raise (ValidationError d))
   /\ forall partial data,
        get "year" data = Some (Int value) ->
        exists d,
          Drf.validate_field now partial (TitleSerializer.methods now)
            TitleSerializer.year data = Raise (ValidationError d))
  /\ (value <= now ->
      TitleSerializer.validator_year now (Int value) = Ok (Int value)
      /\ validate_year now (Int value) = Ok tt
      /\ (0 <= value <= 32767 ->
          forall partial data,
            get "year" data = Some (Int value) ->
            Drf.validate_field now partial (TitleSerializer.methods now)
              TitleSerializer.year data = Ok (Drf.Value (Int value)))).
Proof.
  split.
  - intro future. split.
    + rewrite validator_year_int. replace (now <? value) with true by lia.
      eexists. reflexivity.
    + intros partial data given.
      rewrite validate_year_field, given, year_field_int.
      cbn [Drf.run_validators Django.call]. unfold validate_year, gt, lt.
      cbn [as_number bind]. replace (now <? value) with true by lia.
      cbn [app]. destruct (32767 <? value), (value <? 0);
        cbn [app bind]; eexists; reflexivity.
  - intro past. split; [| split].
    + rewrite validator_year_int. now replace (now <? value) with false by lia.
    + unfold validate_year, gt, lt. cbn [as_number bind].
      now replace (now <? value) with false by lia.
    + intros range partial data given.
      rewrite validate_year_field, given, year_field_int.
      cbn [Drf.run_validators Django.call]. unfold validate_year, gt, lt.
      cbn [as_number bind]. replace (now <? value) with false by lia.
      replace (32767 <? value) with false by lia.
      replace (value <? 0) with false by lia. reflexivity.
Qed.

Lemma year_not_in_the_future_witness :
  (exists d, TitleSerializer.validator_year 2024 (Int 2025)
             = Raise (ValidationError d))
  /\ (exists d,
         Drf.validate_field 2024 false (TitleSerializer.methods 2024)
           TitleSerializer.year [("name", Str "Dune"); ("year", Int 2025)]
         = Raise (ValidationError d))
  /\ TitleSerializer.validator_year 2024 (Int 2024) = Ok (Int 2024)
  /\ Drf.validate_field 2024 false (TitleSerializer.methods 2024)
       TitleSerializer.year [("name", Str "Dune"); ("year", Int 1965)]
     = Ok (Drf.Value (Int 1965)).
Proof.
  split; [| split; [| split]].
  - apply (year_not_in_the_future 2024 2025). lia.
  - apply (year_not_in_the_future 2024 2025); [lia | reflexivity].
  - apply (year_not_in_the_future 2024 2024). lia.
  - apply (year_not_in_the_future 2024 1965); [lia | lia | reflexivity].
Defined.

(* ================================================================== *)
(** ** The username of a registration and of the full representation *)

Lemma validate_username_str (VALIDATE_NAME s : string) :
  RegisterDataSerializer.validate_username VALIDATE_NAME (Str s)
  = if String.eqb (lower s) VALIDATE_NAME
    then Raise (ValidationError
                  (Msg ("Username " ++ VALIDATE_NAME ++ " is not valid")))
    else Ok (Str s).
Proof. reflexivity. Qed.

(** The validators of a username raise nothing but validation errors. *)
Lemma username_validators (now : Z) (db : DB.t) (instance : option User.t)
    (v : value) :
  Drf.run_validators now
    (Drf.validators (UserSerializer.username db instance)) v [] = Ok tt
  \/ exists l,
       Drf.run_validators now
         (Drf.validators (UserSerializer.username db instance)) v []
       = Raise (ValidationError (List_ l)).
Proof.
  cbn [UserSerializer.username Drf.declared_CharField Drf.validators app
       Drf.run_validators Django.call Drf.UniqueValidator
       Drf.prohibit_null_characters].
  destruct instance as [i |];
    match goal with
    | |- context [match ?others with [] => Ok tt | _ :: _ => _ end] =>
        destruct others
    end;
    destruct (Drf.contains zero (str v)); cbn; eauto.
Qed.

Lemma username_field_str (now : Z) (partial : bool) (db : DB.t)
    (instance : option User.t) (s : string) :
  Drf.Field_run_validation now partial (UserSerializer.username db instance)
    (Some (Str s))
  = if String.eqb (strip s) "" then Raise (ValidationError (Msg "blank"))
    else (_ <- Drf.run_validators now
                 (Drf.validators (UserSerializer.username db instance))
                 (Str (strip s)) [] ;;
          Ok (Drf.Value (Str (strip s)))).
Proof.
  unfold Drf.Field_run_validation, Drf.blank_check.
  cbn [UserSerializer.username Drf.declared_CharField Drf.read_only Drf.kind
       str].
  destruct (String.eqb (strip s) ""); reflexivity.
Qed.

Lemma validate_register_username (VALIDATE_NAME : string) (now : Z)
    (partial : bool) (db : DB.t) (instance : option User.t) (data : dict) :
  Drf.validate_field now partial
    (RegisterDataSerializer.methods VALIDATE_NAME)
    (RegisterDataSerializer.username db instance) data
  = (validated_value <- Drf.Field_run_validation now partial
                          (UserSerializer.username db instance)
                          (get "username" data) ;;
     match validated_value with
     | Drf.Value v =>
         v' <- RegisterDataSerializer.validate_username VALIDATE_NAME v ;;
         Ok (Drf.Value v')
     | Drf.SkipField => Ok Drf.SkipField
     end).
Proof.
  unfold Drf.validate_field.
  change (RegisterDataSerializer.username db instance)
    with (UserSerializer.username db instance).
  change (Drf.field_name (UserSerializer.username db instance))
    with "username".
  change (Drf.getattr (RegisterDataSerializer.methods VALIDATE_NAME)
            ("validate_" ++ "username"))
    with (Some (RegisterDataSerializer.validate_username VALIDATE_NAME)).
  destruct (Drf.Field_run_validation _ _ _ _) as [[| v] |]; reflexivity.
Qed.

Lemma validate_user_username (now : Z) (partial : bool) (db : DB.t)
    (instance : option User.t) (data : dict) :
  Drf.validate_field now partial UserSerializer.methods
    (UserSerializer.username db instance) data
  = Drf.Field_run_validation now partial (UserSerializer.username db instance)
      (get "username" data).
Proof.
  unfold Drf.validate_field.
  change (Drf.field_name (UserSerializer.username db instance))
    with "username".
  change (Drf.getattr UserSerializer.methods ("validate_" ++ "username"))
    with (@None Drf.method).
  destruct (Drf.Field_run_validation _ _ _ _) as [[| v] |]; reflexivity.
Qed.

(** On registration the field rejects a name whose trimmed, lower-cased
    value is the reserved one. *)
Lemma register_rejects_reserved (VALIDATE_NAME s : string) (now : Z)
    (partial : bool) (db : DB.t) (instance : option User.t) (data : dict) :
  lower (strip s) = VALIDATE_NAME ->
  get "username" data = Some (Str s) ->
  exists d,
    Drf.validate_field now partial
      (RegisterDataSerializer.methods VALIDATE_NAME)
      (RegisterDataSerializer.username db instance) data
    = Raise (ValidationError d).
Proof.
  intros reserved given.
  rewrite validate_register_username, given, username_field_str.
  destruct (String.eqb (strip s) ""); [eexists; reflexivity |].
  destruct (username_validators now db instance (Str (strip s)))
    as [-> | (d & ->)]; [| eexists; reflexivity].
  cbn [bind]. rewrite validate_username_str.
  apply String.eqb_eq in reserved. rewrite reserved.
  eexists. reflexivity.
Qed.

(** What the username field of the full representation can answer. *)
Lemma username_field_outcome (now : Z) (partial : bool) (db : DB.t)
    (instance : option User.t) (data : option value) :
  match Drf.Field_run_validation now partial
          (UserSerializer.username db instance) data with
  | Ok _ => True
  | Raise (ValidationError (Msg m)) =>
      In m ["required"; "null"; "blank"; "invalid"]
  | Raise (ValidationError _) => True
  | Raise _ => False
  end.
Proof.
  destruct data as [[| b | n | s] |].
  - cbn. auto.
  - unfold Drf.Field_run_validation, Drf.blank_check.
    cbn [UserSerializer.username Drf.declared_CharField Drf.read_only
         Drf.kind].
    destruct (String.eqb (strip (str (Bool b))) ""); cbn; auto.
  - unfold Drf.Field_run_validation, Drf.blank_check.
    change (Drf.read_only (UserSerializer.username db instance)) with false.
    change (Drf.kind (UserSerializer.username db instance))
      with (Drf.CharField false).
    cbv iota.
    destruct (String.eqb (strip (str (Int n))) ""); [cbn; auto |].
    change (Drf.Field_to_internal_value _ (Int n))
      with (@Ok value (Str (strip (str (Int n))))).
    cbn [bind].
    destruct (username_validators now db instance (Str (strip (str (Int n)))))
      as [-> | (l & ->)]; exact I.
  - rewrite username_field_str.
    destruct (String.eqb (strip s) ""); [cbn; auto |].
    destruct (username_validators now db instance (Str (strip s)))
      as [-> | (l & ->)]; exact I.
  - unfold Drf.Field_run_validation.
    cbn [UserSerializer.username Drf.declared_CharField Drf.read_only
         Drf.required].
    destruct partial; cbn; auto.
Qed.

Lemma not_taken (s : string) (users : list User.t) :
  Forall (fun u => User.username u <> s) users ->
  filter (fun u => eqb (Str (User.username u)) (Str s)) users = [].
Proof.
  induction 1 as [| u users free _ IH]; [reflexivity |].
  cbn [filter]. rewrite IH. cbn [eqb as_number].
  apply String.eqb_neq in free. now rewrite free.
Qed.

(** C5. On registration a username whose lower-cased value is the
    reserved name is rejected with a validation error, by
    [validate_username] and so by the field (which hands the method the
    name without surrounding white space); a username whose lower-cased
    value is another one passes the method unchanged. *)
Theorem reserved_username_is_rejected (VALIDATE_NAME s : string) :
  (lower s = VALIDATE_NAME ->
   RegisterDataSerializer.validate_username VALIDATE_NAME (Str s)
   = Raise (ValidationError
              (Msg ("Username " ++ VALIDATE_NAME ++ " is not valid"))))
  /\ (lower (strip s) = VALIDATE_NAME ->
      forall now partial db instance data,
        get "username" data = Some (Str s) ->
        exists d,
          Drf.validate_field now partial
            (RegisterDataSerializer.methods VALIDATE_NAME)
            (RegisterDataSerializer.username db instance) data
          = Raise (ValidationError d))
  /\ (lower s <> VALIDATE_NAME ->
      RegisterDataSerializer.validate_username VALIDATE_NAME (Str s)
      = Ok (Str s)).
Proof.
  split; [| split].
  - intro reserved. rewrite validate_username_str.
    apply String.eqb_eq in reserved. now rewrite reserved.
  - intros reserved now partial db instance data given.
    now apply register_rejects_reserved with (s := s).
  - intro free. rewrite validate_username_str.
    apply String.eqb_neq in free. now rewrite free.
Qed.

Lemma reserved_username_is_rejected_witness :
  (exists d, RegisterDataSerializer.validate_username "me" (Str "Me")
             = Raise (ValidationError d))
  /\ (exists d,
         Drf.validate_field 2024 false (RegisterDataSerializer.methods "me")
           (RegisterDataSerializer.username Sample.db None)
           [("username", Str "ME"); ("email", Str "me@example.org")]
         = Raise (ValidationError d))
  /\ RegisterDataSerializer.validate_username "me" (Str "me_too")
     = Ok (Str "me_too").
Proof.
  split; [| split].
  - eexists. apply (reserved_username_is_rejected "me" "Me"). reflexivity.
  - apply (reserved_username_is_rejected "me" "ME"); reflexivity.
  - apply (reserved_username_is_rejected "me" "me_too"). discriminate.
Defined.

(** C9. The full user representation has no [validate_username]: its
    username is checked by the field alone, so it never fails with the
    message of the reserved name, and a username that the registration
    rejects as reserved is valid there when it is not blank, has no null
    character and is not taken. *)
Theorem full_representation_allows_reserved_username
    (VALIDATE_NAME : string) (now : Z) (partial : bool) (db : DB.t)
    (instance : option User.t) :
  (forall data,
      Drf.validate_field now partial UserSerializer.methods
        (UserSerializer.username db instance) data
      = Drf.Field_run_validation now partial
          (UserSerializer.username db instance) (get "username" data))
  /\ (forall data,
         Drf.validate_field now partial UserSerializer.methods
           (UserSerializer.username db instance) data
         <> Raise (ValidationError
                     (Msg ("Username " ++ VALIDATE_NAME ++ " is not valid"))))
  /\ (forall s data,
         lower s = VALIDATE_NAME ->
         get "username" data = Some (Str s) ->
         strip s = s -> s <> "" ->
         Drf.contains zero s = false ->
         Forall (fun u => User.username u <> s) (DB.users db) ->
         Drf.validate_field now partial UserSerializer.methods
           (UserSerializer.username db instance) data
         = Ok (Drf.Value (Str s))
         /\ exists d,
              Drf.validate_field now partial
                (RegisterDataSerializer.methods VALIDATE_NAME)
                (RegisterDataSerializer.username db instance) data
              = Raise (ValidationError d)).
Proof.
  split; [| split].
  - apply validate_user_username.
  - intro data. rewrite validate_user_username.
    pose proof (username_field_outcome now partial db instance
                  (get "username" data)) as outcome.
    destruct (Drf.Field_run_validation _ _ _ _) as [v | [[m | l | l] | | | | | |]];
      try discriminate.
    intros [= ->]. cbn in outcome.
    destruct outcome as [e | [e | [e | [e | []]]]]; discriminate e.
  - intros s data reserved given trimmed nonblank nonull free. split.
    + rewrite validate_user_username, given, username_field_str, trimmed.
      apply String.eqb_neq in nonblank. rewrite nonblank.
      cbn [UserSerializer.username Drf.declared_CharField Drf.validators app
           Drf.run_validators Django.call Drf.UniqueValidator
           Drf.prohibit_null_characters].
      rewrite (not_taken s (DB.users db) free).
      cbn [str]. rewrite nonull.
      now destruct instance.
    + apply register_rejects_reserved with (s := s); [| assumption].
      now rewrite trimmed.
Qed.

Lemma full_representation_allows_reserved_username_witness :
  Drf.validate_field 2024 false UserSerializer.methods
    (UserSerializer.username Sample.db None)
    [("username", Str "me"); ("email", Str "me@example.org")]
  = Ok (Drf.Value (Str "me"))
  /\ exists d,
       Drf.validate_field 2024 false (RegisterDataSerializer.methods "me")
         (RegisterDataSerializer.username Sample.db None)
         [("username", Str "me"); ("email", Str "me@example.org")]
       = Raise (ValidationError d).
Proof.
  apply (full_representation_allows_reserved_username "me" 2024 false
           Sample.db None);
    try reflexivity.
  - discriminate.
  - repeat constructor; discriminate.
Defined.

(* ================================================================== *)
(** ** TitleSerializer: name and year together *)

Lemma filter_nonempty {A} (p : A -> bool) (l : list A) (x : A) :
  In x l -> p x = true -> exists y rest, filter p l = y :: rest.
Proof.
  intros inx px. destruct (filter p l) as [| y rest] eqn:e; [| eauto].
  assert (In x (filter p l)) as inf by now apply filter_In.
  rewrite e in inf. destruct inf.
Qed.

(** C6. On a creation and on an update through the write representation,
    a name and year that a title in the table already has (on an update:
    a title other than the one updated; a field the request leaves out
    is read from the title updated) fail the class validator with a
    uniqueness error.  The validator computes an outcome from the table
    and writes nothing. *)
Theorem name_and_year_in_use_is_rejected (db : DB.t)
    (instance : option Title.t) (attrs : dict) (other : Title.t)
    (name : string) (year : Z) :
  Drf.attr_or_instance Title.getattr instance "name" attrs = Some (Str name) ->
  Drf.attr_or_instance Title.getattr instance "year" attrs = Some (Int year) ->
  In other (DB.titles db) ->
  Title.name other = name ->
  Title.year other = year ->
  (forall i, instance = Some i -> Title.id other <> Title.id i) ->
  Drf.run_class_validators (TitleSerializer.Meta_validators db instance)
    attrs []
  = Raise (ValidationError (List_ [Msg "unique"])).
Proof.
  intros given_name given_year inother same_name same_year differs.
  unfold TitleSerializer.Meta_validators.
  cbn [Drf.run_class_validators]. unfold Drf.UniqueTogetherValidator.
  cbn [Drf.filter_kwargs]. rewrite given_name, given_year.
  cbn [existsb snd orb].
  set (agree := fun row : Title.t => forallb _ _).
  assert (agree other = true) as agrees.
  { unfold agree. cbn [forallb fst snd]. unfold Title.getattr.
    cbn [String.eqb Ascii.eqb Bool.eqb]. rewrite same_name, same_year.
    cbn [eqb as_number]. now rewrite String.eqb_refl, Z.eqb_refl. }
  destruct instance as [i |].
  - assert (In other (filter agree (DB.titles db))) as inmatching
        by now apply filter_In.
    destruct (filter_nonempty (fun row => negb (Title.id row =? Title.id i))
                (filter agree (DB.titles db)) other inmatching)
      as (y & rest & ->).
    + apply negb_true_iff, Z.eqb_neq. now apply differs.
    + reflexivity.
  - destruct (filter_nonempty agree (DB.titles db) other inother agrees)
      as (y & rest & ->).
    reflexivity.
Qed.

Lemma name_and_year_in_use_is_rejected_witness :
  Drf.run_class_validators
    (TitleSerializer.Meta_validators Sample.db None)
    [("name", Str "Dune"); ("year", Int 1965)] []
  = Raise (ValidationError (List_ [Msg "unique"]))
  /\ Drf.run_class_validators
       (TitleSerializer.Meta_validators Sample.db (Some Sample.remake))
       [("year", Int 1965)] []
     = Raise (ValidationError (List_ [Msg "unique"])).
Proof.
  split.
  - apply (name_and_year_in_use_is_rejected Sample.db None _ Sample.dune
             "Dune" 1965); try reflexivity.
    + left. reflexivity.
    + discriminate.
  - apply (name_and_year_in_use_is_rejected Sample.db (Some Sample.remake)
             _ Sample.dune "Dune" 1965); try reflexivity.
    + left. reflexivity.
    + intros i [= <-]. discriminate.
Defined.

(** An update that keeps the title's own name and year is not a clash. *)
Example update_keeps_own_name_and_year :
  Drf.run_class_validators
    (TitleSerializer.Meta_validators Sample.db (Some Sample.dune))
    [("name", Str "Dune"); ("year", Int 1965)] []
  = Ok tt.
Proof. reflexivity. Qed.

(* ================================================================== *)
(** ** ReviewSerializer: author and title *)

Lemma get_set (k k' : string) (v : value) (d : dict) :
  get k (set k' v d) = if String.eqb k k' then Some v else get k d.
Proof.
  induction d as [| [k'' v''] d IH]; cbn [set get].
  - reflexivity.
  - destruct (String.eqb_spec k' k'') as [<- | differ]; cbn [get].
    + now destruct (String.eqb k k').
    + destruct (String.eqb_spec k k'') as [-> | _]; [| exact IH].
      apply not_eq_sym, String.eqb_neq in differ. now rewrite differ.
Qed.

Lemma validate_field_ext now partial methods (f : Drf.Field) (d1 d2 : dict) :
  get (Drf.field_name f) d1 = get (Drf.field_name f) d2 ->
  Drf.validate_field now partial methods f d1
  = Drf.validate_field now partial methods f d2.
Proof. unfold Drf.validate_field. now intros ->. Qed.

(** The fields read the data under their own names only. *)
Lemma fields_to_internal_value_ext now partial methods
    (fields : list Drf.Field) (d1 d2 ret : dict) errors :
  (forall f, In f fields ->
             get (Drf.field_name f) d1 = get (Drf.field_name f) d2) ->
  Drf.fields_to_internal_value now partial methods fields d1 ret errors
  = Drf.fields_to_internal_value now partial methods fields d2 ret errors.
Proof.
  revert ret errors.
  induction fields as [| f fields IH]; intros ret errors same;
    [reflexivity |].
  cbn [Drf.fields_to_internal_value].
  rewrite (validate_field_ext now partial methods f d1 d2)
    by (apply same; now left).
  destruct (Drf.validate_field now partial methods f d2)
    as [[| v] | []]; try reflexivity; apply IH;
    intros g ing; apply same; now right.
Qed.

(** The validated data holds keys of the starting dictionary and names
    of the fields, nothing else. *)
Lemma fields_to_internal_value_keys now partial methods
    (fields : list Drf.Field) (data ret vd : dict) errors (k : string) :
  Drf.fields_to_internal_value now partial methods fields data ret errors
  = Ok vd ->
  get k ret = None ->
  (forall f, In f fields -> Drf.field_name f <> k) ->
  get k vd = None.
Proof.
  revert ret errors.
  induction fields as [| f fields IH]; intros ret errors.
  - cbn. destruct errors; [| discriminate]. now intros [= <-].
  - cbn [Drf.fields_to_internal_value]. intros run absent others.
    destruct (Drf.validate_field now partial methods f data)
      as [[| v] | []]; try discriminate;
      eapply IH; try eassumption;
      try (intros g ing; apply others; now right).
    rewrite get_set.
    assert (Drf.field_name f <> k) as differ by (apply others; now left).
    apply not_eq_sym, String.eqb_neq in differ. now rewrite differ.
Qed.

Lemma validate_returns_data request db (data data' : dict) :
  ReviewSerializer.validate request db data = Ok data' -> data' = data.
Proof.
  unfold ReviewSerializer.validate.
  destruct (negb _); [now intros [= <-] |].
  destruct (Django.get_object_or_404 _) as [author |]; [| discriminate].
  cbn [bind].
  destruct (Django.pk_prep_value _) as [pk |]; [| discriminate]. cbn [bind].
  destruct (Django.get_object_or_404 _) as [title |]; [| discriminate].
  cbn [bind]. destruct (existsb _ _); [discriminate |]. now intros [= <-].
Qed.

Lemma is_valid_to_internal_value now request db (vd : dict) :
  ReviewSerializer.is_valid now request db = Ok vd ->
  Drf.fields_to_internal_value now (String.eqb (method request) "PATCH")
    ReviewSerializer.methods [ReviewSerializer.text; ReviewSerializer.score]
    (data request) [] []
  = Ok vd.
Proof.
  unfold ReviewSerializer.is_valid, Drf.Serializer_run_validation,
    Drf.Serializer_to_internal_value.
  change (Drf.writable_fields (ReviewSerializer.serializer request db))
    with [ReviewSerializer.text; ReviewSerializer.score].
  change (Drf.methods (ReviewSerializer.serializer request db))
    with ReviewSerializer.methods.
  destruct (Drf.fields_to_internal_value _ _ _ _ _ _ _) as [value |];
    [| discriminate].
  cbn [bind Drf.Meta_validators ReviewSerializer.serializer
       Drf.run_class_validators Drf.validate].
  destruct (ReviewSerializer.validate request db value) as [data' | e] eqn:v.
  - apply validate_returns_data in v. now intros [= <-]; subst.
  - destruct e; discriminate.
Qed.





(** An explicit null for the score reaches [validate_score], whose
    comparison does not accept it. *)
Example null_score_is_a_type_error :
  ReviewSerializer.is_valid 2024
    (Sample.request "POST" [("text", Str "fine"); ("score", None_)])
    Sample.db
  = Raise TypeError.
Proof. reflexivity. Qed.

(* ================================================================== *)
(** * Further properties *)

Lemma filter_none_on {A} (p : A -> bool) (l : list A) :
  Forall (fun x => p x = false) l -> filter p l = [].
Proof.
  induction 1 as [| x l px _ IH]; [reflexivity |].
  cbn [filter]. now rewrite px.
Qed.

Lemma filter_all_on {A} (p : A -> bool) (l : list A) :
  Forall (fun x => p x = true) l -> filter p l = l.
Proof.
  induction 1 as [| x l px _ IH]; [reflexivity |].
  cbn [filter]. now rewrite px, IH.
Qed.

(* ================================================================== *)
(** ** TitleSerializer: the rating and the methods it dispatches to *)

Lemma validate_rating_int (n : Z) :
  TitleSerializer.validate_rating (Int n)
  = if (n <? 1) || (10 <? n)
    then Raise (ValidationError (Msg "Недопустимое значение!"))
    else Ok (Int n).
Proof.
  unfold TitleSerializer.validate_rating, gt, lt. cbn [as_number bind].
  now destruct (n <? 1), (10 <? n).
Qed.

Lemma rating_field_int (now : Z) (partial : bool) (n : Z) :
  Drf.Field_run_validation now partial TitleSerializer.rating (Some (Int n))
  = (_ <- Drf.run_validators now
            [Django.MaxValueValidator 10 "max_value";
             Django.MinValueValidator 1 "min_value"]
            (Int n) [] ;;
     Ok (Drf.Value (Int n))).
Proof. reflexivity. Qed.

Lemma validate_rating_field (now : Z) (partial : bool) (data : dict) :
  Drf.validate_field now partial (TitleSerializer.methods now)
    TitleSerializer.rating data
  = (validated_value <- Drf.Field_run_validation now partial
                          TitleSerializer.rating (get "rating" data) ;;
     match validated_value with
     | Drf.Value v =>
         v' <- TitleSerializer.validate_rating v ;; Ok (Drf.Value v')
     | Drf.SkipField => Ok Drf.SkipField
     end).
Proof.
  unfold Drf.validate_field.
  change (Drf.field_name TitleSerializer.rating) with "rating".
  change (Drf.getattr (TitleSerializer.methods now) ("validate_" ++ "rating"))
    with (Some TitleSerializer.validate_rating).
  destruct (Drf.Field_run_validation _ _ _ _) as [[| v] |]; reflexivity.
Qed.

(** X1. Through the write representation a rating that is given as a
    number is accepted exactly when it lies in 1..10 (the limits of the
    column and [validate_rating] agree); a rating is not required; and a
    null rating, which the nullable column lets through the field,
    makes [validate_rating] raise a [TypeError]. *)
Theorem rating_is_in_range_when_given (now : Z) (partial : bool)
    (data : dict) (n : Z) :
  get "rating" data = Some (Int n) ->
  (1 <= n <= 10 <->
   Drf.validate_field now partial (TitleSerializer.methods now)
     TitleSerializer.rating data = Ok (Drf.Value (Int n)))
  /\ (n < 1 \/ 10 < n <->
      exists d,
        Drf.validate_field now partial (TitleSerializer.methods now)
          TitleSerializer.rating data = Raise (ValidationError d))
  /\ (1 <= n <= 10 <-> TitleSerializer.validate_rating (Int n) = Ok (Int n))
  /\ (forall data',
         get "rating" data' = None ->
         Drf.validate_field now partial (TitleSerializer.methods now)
           TitleSerializer.rating data' = Ok Drf.SkipField)
  /\ (forall data',
         get "rating" data' = Some None_ ->
         Drf.validate_field now partial (TitleSerializer.methods now)
           TitleSerializer.rating data' = Raise TypeError).
Proof.
  intro given.
  assert (Drf.validate_field now partial (TitleSerializer.methods now)
            TitleSerializer.rating data
          = if (n <? 1) || (10 <? n)
            then Raise (ValidationError
                          (List_ [Msg (if 10 <? n then "max_value"
                                       else "min_value")]))
            else Ok (Drf.Value (Int n))) as outcome.
  { rewrite validate_rating_field, given, rating_field_int.
    cbn [Drf.run_validators Django.call]. unfold gt, lt.
    cbn [as_number bind].
    destruct (10 <? n) eqn:high, (n <? 1) eqn:low; cbn [app bind orb];
      try reflexivity; try lia.
    rewrite validate_rating_int, low, high. reflexivity. }
  split; [| split; [| split; [| split]]].
  - rewrite outcome. split.
    + intro range. now replace ((n <? 1) || (10 <? n)) with false by lia.
    + destruct ((n <? 1) || (10 <? n)) eqn:out; [discriminate | lia].
  - rewrite outcome. split.
    + intro range. replace ((n <? 1) || (10 <? n)) with true by lia.
      eexists. reflexivity.
    + destruct ((n <? 1) || (10 <? n)) eqn:out; [lia |].
      intros (d & e). discriminate e.
  - rewrite validate_rating_int. split.
    + intro range. now replace ((n <? 1) || (10 <? n)) with false by lia.
    + destruct ((n <? 1) || (10 <? n)) eqn:out; [discriminate | lia].
  - intros data' absent. rewrite validate_rating_field, absent.
    now destruct partial.
  - intros data' null. rewrite validate_rating_field, null. reflexivity.
Qed.

Lemma rating_is_in_range_when_given_witness :
  Drf.validate_field 2024 false (TitleSerializer.methods 2024)
    TitleSerializer.rating [("name", Str "Dune"); ("rating", Int 10)]
  = Ok (Drf.Value (Int 10))
  /\ exists d,
       Drf.validate_field 2024 false (TitleSerializer.methods 2024)
         TitleSerializer.rating [("name", Str "Dune"); ("rating", Int 0)]
       = Raise (ValidationError d).
Proof.
  split.
  - apply (rating_is_in_range_when_given 2024 false _ 10); [reflexivity | lia].
  - apply (rating_is_in_range_when_given 2024 false _ 0); [reflexivity | lia].
Defined.

(** X2. Whatever the field is called, the serializer finds a
    [validate_<field>] method of the Title write representation only for
    the rating: [validator_year] is never dispatched to, for the year or
    for any other field. *)
Theorem title_methods_dispatch (now : Z) (name : string) (m : Drf.method) :
  Drf.getattr (TitleSerializer.methods now) ("validate_" ++ name) = Some m ->
  name = "rating" /\ m = TitleSerializer.validate_rating.
Proof.
  unfold TitleSerializer.methods. cbn [Drf.getattr].
  change (String.eqb ("validate_" ++ name) "validator_year") with false.
  change (String.eqb ("validate_" ++ name) "validate_rating")
    with (String.eqb name "rating").
  destruct (String.eqb_spec name "rating") as [-> | _]; [| discriminate].
  now intros [= <-].
Qed.

Lemma title_methods_dispatch_witness :
  "rating" = "rating"
  /\ TitleSerializer.validate_rating = TitleSerializer.validate_rating.
Proof.
  apply (title_methods_dispatch 2024 "rating" TitleSerializer.validate_rating).
  reflexivity.
Defined.

(* ================================================================== *)
(** ** User.is_moderator *)

(** X3. A moderator is a user whose role is ['moderator']; the role
    alone does not make a moderator an admin, the staff or superuser flag
    does. *)
Theorem moderator_is_admin_by_flag_only (u : User.t) :
  (User.is_moderator u = true <-> User.role u = MODERATOR)
  /\ (User.is_moderator u = true ->
      (User.is_admin u = true <->
       User.is_staff u = true \/ User.is_superuser u = true)).
Proof.
  unfold User.is_moderator, User.is_admin. split.
  - apply String.eqb_eq.
  - intro moderator. apply String.eqb_eq in moderator. rewrite moderator.
    change (String.eqb MODERATOR ADMIN) with false.
    cbn [orb]. apply orb_true_iff.
Qed.

Lemma moderator_is_admin_by_flag_only_witness :
  User.is_admin Sample.eve = true <->
  User.is_staff Sample.eve = true \/ User.is_superuser Sample.eve = true.
Proof.
  apply (moderator_is_admin_by_flag_only Sample.eve). reflexivity.
Defined.

(* ================================================================== *)
(** ** ReviewSerializer.validate: what it can answer *)

(** X4. On a [POST], [validate] answers not-found when no user has the
    acting user's name, whatever the route says, and when the user is
    found but no title has the key of the route; both before it looks
    for an existing review. *)
Theorem validate_not_found (request : Request) (db : DB.t) (data : dict) :
  method request = "POST" ->
  (Forall (fun u => User.username u <> user_str (user request))
          (DB.users db) ->
   ReviewSerializer.validate request db data = Raise Http404)
  /\ (forall author pk,
         Django.get_object_or_404
           (filter (fun u => String.eqb (User.username u)
                                        (user_str (user request)))
                   (DB.users db)) = Ok author ->
         Django.pk_prep_value (get "title_id" (kwargs request)) = Ok pk ->
         Forall (fun x => Some (Title.id x) <> pk) (DB.titles db) ->
         ReviewSerializer.validate request db data = Raise Http404).
Proof.
  intro post. unfold ReviewSerializer.validate. rewrite post.
  cbn [String.eqb Ascii.eqb Bool.eqb negb]. split.
  - intro unknown.
    rewrite filter_none_on; [reflexivity |].
    eapply Forall_impl; [| exact unknown].
    intros u differ. now apply String.eqb_neq.
  - intros author pk found prep unknown.
    rewrite found. cbn [bind]. rewrite prep. cbn [bind].
    rewrite filter_none_on; [reflexivity |].
    eapply Forall_impl; [| exact unknown].
    intros x differ. destruct pk as [k |]; [| reflexivity].
    apply Z.eqb_neq. congruence.
Qed.

Lemma validate_not_found_witness :
  ReviewSerializer.validate
    {| method := "POST"; user := None;
       kwargs := [("title_id", Str "7")]; data := [] |}
    Sample.db [] = Raise Http404
  /\ ReviewSerializer.validate
       {| method := "POST"; user := Some Sample.bob;
          kwargs := [("title_id", Str "70")]; data := [] |}
       Sample.db [] = Raise Http404.
Proof.
  split.
  - apply (proj1 (validate_not_found
                    {| method := "POST"; user := None;
                       kwargs := [("title_id", Str "7")]; data := [] |}
                    Sample.db [] eq_refl)).
    repeat constructor; discriminate.
  - apply (proj2 (validate_not_found
                    {| method := "POST"; user := Some Sample.bob;
                       kwargs := [("title_id", Str "70")]; data := [] |}
                    Sample.db [] eq_refl)
             Sample.bob (Some 70) eq_refl eq_refl).
    repeat constructor; discriminate.
Defined.

Lemma get_object_or_404_Raise {Row} (matching : list Row) (e : exn) :
  Django.get_object_or_404 matching = Raise e ->
  e = Http404 \/ e = MultipleObjectsReturned.
Proof.
  destruct matching as [| x [| y rest]]; cbn; intros [= <-]; auto.
Qed.

(** X5. [validate] never changes the data: when it returns, it returns
    the data it was given; otherwise it raises the duplicate error,
    not-found, or what the two lookups raise.  On a [POST] by a known
    user for a known title without a review of theirs it returns. *)
Theorem validate_outcomes (request : Request) (db : DB.t) (data : dict) :
  (ReviewSerializer.validate request db data = Ok data
   \/ ReviewSerializer.validate request db data
      = Raise (ValidationError (Msg "Можно написать только одно ревью."))
   \/ ReviewSerializer.validate request db data = Raise Http404
   \/ ReviewSerializer.validate request db data = Raise MultipleObjectsReturned
   \/ ReviewSerializer.validate request db data = Raise ValueError)
  /\ (forall author title pk,
         Django.get_object_or_404
           (filter (fun u => String.eqb (User.username u)
                                        (user_str (user request)))
                   (DB.users db)) = Ok author ->
         Django.pk_prep_value (get "title_id" (kwargs request))
         = Ok (Some pk) ->
         Django.get_object_or_404
           (filter (fun x => Title.id x =? pk) (DB.titles db)) = Ok title ->
         Forall (fun r => Review.title r <> Title.id title
                          \/ Review.author r <> User.id author)
                (DB.reviews db) ->
         ReviewSerializer.validate request db data = Ok data).
Proof.
  split.
  - unfold ReviewSerializer.validate.
    destruct (negb _); [now left |].
    destruct (Django.get_object_or_404 _) as [author | e] eqn:found.
    2:{ cbn [bind].
        destruct (get_object_or_404_Raise _ _ found) as [-> | ->]; auto 8. }
    cbn [bind].
    destruct (Django.pk_prep_value _) as [pk | e] eqn:prep.
    2:{ cbn [bind]. unfold Django.pk_prep_value in prep.
        destruct (get "title_id" (kwargs request)) as [[| b | n | s] |];
          try discriminate prep.
        destruct (int s); cbn in prep; [discriminate prep |].
        injection prep as <-. auto 8. }
    cbn [bind].
    destruct (Django.get_object_or_404 (filter _ (DB.titles db)))
      as [title | e] eqn:found_title.
    2:{ cbn [bind].
        destruct (get_object_or_404_Raise _ _ found_title) as [-> | ->];
          auto 8. }
    cbn [bind]. destruct (existsb _ _); auto.
  - intros author title pk found prep found_title fresh.
    unfold ReviewSerializer.validate.
    destruct (negb _); [reflexivity |].
    rewrite found. cbn [bind]. rewrite prep. cbn [bind].
    rewrite found_title. cbn [bind].
    replace (existsb _ (DB.reviews db)) with false; [reflexivity |].
    symmetry. apply not_true_is_false. intro dup.
    apply existsb_exists in dup as (r & inr & same).
    apply andb_true_iff in same as (t & a). apply Z.eqb_eq in t, a.
    rewrite Forall_forall in fresh. destruct (fresh r inr); contradiction.
Qed.

Lemma validate_outcomes_witness :
  ReviewSerializer.validate (Sample.request "POST" []) Sample.db
    [("text", Str "fine")]
  = Ok [("text", Str "fine")].
Proof.
  apply (proj2 (validate_outcomes (Sample.request "POST" []) Sample.db
                  [("text", Str "fine")])
           Sample.bob Sample.dune 7);
    try reflexivity.
  constructor.
Defined.

(* ================================================================== *)
(** ** Deletion: the tables afterwards *)

Lemma delete_review_tables (pk : Z) (db : DB.t) :
  delete_review pk db
  = {| DB.categories := DB.categories db; DB.genres := DB.genres db;
       DB.titles := DB.titles db; DB.users := DB.users db;
       DB.reviews :=
         filter (fun r => negb (mem (Review.id r) [pk])) (DB.reviews db);
       DB.comments :=
         filter (fun c =>
                   negb (mem (Comment.id c)
                           (map Comment.id
                              (filter (Django.references
                                         (fun c => Some (Comment.review c))
                                         [pk])
                                      (DB.comments db)))))
                (DB.comments db) |}.
Proof. reflexivity. Qed.

Lemma delete_title_tables (pk : Z) (db : DB.t) :
  delete_title pk db
  = {| DB.categories := DB.categories db; DB.genres := DB.genres db;
       DB.titles :=
         filter (fun x => negb (mem (Title.id x) [pk])) (DB.titles db);
       DB.users := DB.users db;
       DB.reviews :=
         filter (fun r => negb (mem (Review.id r)
                                  (map Review.id (reviews_of db pk))))
                (DB.reviews db);
       DB.comments :=
         filter (fun c =>
                   negb (mem (Comment.id c)
                           (map Comment.id
                              (filter (Django.references
                                         (fun c => Some (Comment.review c))
                                         (map Review.id (reviews_of db pk)))
                                      (DB.comments db)))))
                (DB.comments db) |}.
Proof.
  unfold delete_title, delete_titles, Django.collect, Review.title_on_delete.
  rewrite reviews_of_references. reflexivity.
Qed.

(** The reviews a user wrote. *)
Lemma delete_user_tables (pk : Z) (db : DB.t) :
  delete_user pk db
  = {| DB.categories := DB.categories db; DB.genres := DB.genres db;
       DB.titles := DB.titles db;
       DB.users :=
         filter (fun u => negb (mem (User.id u) [pk])) (DB.users db);
       DB.reviews :=
         filter (fun r => negb (mem (Review.id r)
                                  (map Review.id (reviews_by db pk))))
                (DB.reviews db);
       DB.comments :=
         filter (fun c =>
                   negb (mem (Comment.id c)
                           (map Comment.id
                              (filter (Django.references
                                         (fun c => Some (Comment.author c))
                                         [pk])
                                      (comments_off db
                                         (map Review.id (reviews_by db pk)))))))
                (comments_off db (map Review.id (reviews_by db pk))) |}.
Proof. reflexivity. Qed.

Lemma delete_category_tables (pk : Z) (db : DB.t) :
  delete_category pk db
  = {| DB.categories :=
         filter (fun c => negb (mem (Category.id c) [pk])) (DB.categories db);
       DB.genres := DB.genres db;
       DB.titles :=
         map (fun x => if Django.references Title.category [pk] x
                       then Title.set_category None x else x)
             (DB.titles db);
       DB.users := DB.users db;
       DB.reviews := DB.reviews db;
       DB.comments := DB.comments db |}.
Proof.
  unfold delete_category, delete_categories, Django.collect,
    Title.category_on_delete.
  cbn [map]. rewrite delete_titles_nil. now destruct db.
Qed.

Lemma kept_row {Row} (pk : Row -> Z) (p : Row -> bool) (table : list Row)
    (row : Row) :
  In row (filter (fun row => negb (mem (pk row) (map pk (filter p table))))
                 table) ->
  In row table /\ p row = false.
Proof.
  intro kept. split; [now apply filter_In in kept |].
  pose proof (cascade_leaves_none pk p table) as none.
  rewrite Forall_forall in none. now apply none.
Qed.

Lemma mem_kept {Row} (pk : Row -> Z) (deleted : list Z) (table : list Row)
    (k : Z) :
  mem k (map pk table) = true ->
  mem k deleted = false ->
  mem k (map pk (filter (fun row => negb (mem (pk row) deleted)) table))
  = true.
Proof.
  intros present alive. apply mem_In in present.
  apply in_map_iff in present as (row & <- & inrow).
  apply mem_In, in_map, filter_In. split; [assumption |].
  now rewrite alive.
Qed.

Lemma Forall_kept {A} (P : A -> Prop) (q : A -> bool) (l : list A) :
  Forall P l -> Forall P (filter q l).
Proof.
  rewrite !Forall_forall. intros all x inx. apply all.
  now apply filter_In in inx.
Qed.

(* ================================================================== *)
(** ** Deletion: cascades, integrity, frames *)

(** X6. Deleting a user also deletes the comments, by anyone, on the
    reviews that user wrote: the cascade from the user to the reviews
    goes on from the reviews to their comments. *)
Theorem user_deletion_reaches_comments_on_their_reviews (db : DB.t) (pk : Z) :
  Forall (fun c => mem (Comment.review c) (map Review.id (reviews_by db pk))
                   = false)
         (DB.comments (delete_user pk db))
  /\ Forall (fun c => forall r, In r (DB.reviews db) ->
                                Review.author r = pk ->
                                Comment.review c <> Review.id r)
            (DB.comments (delete_user pk db)).
Proof.
  assert (Forall (fun c => mem (Comment.review c)
                             (map Review.id (reviews_by db pk)) = false)
                 (DB.comments (delete_user pk db))) as gone.
  { rewrite delete_user_tables. cbn [DB.comments].
    apply Forall_kept. unfold comments_off.
    apply (cascade_leaves_none Comment.id
             (Django.references (fun c => Some (Comment.review c))
                (map Review.id (reviews_by db pk)))). }
  split; [exact gone |].
  eapply Forall_impl; [| exact gone].
  intros c alive r inr wrote same.
  assert (mem (Comment.review c) (map Review.id (reviews_by db pk)) = true)
    as dead; [| congruence].
  rewrite same. apply mem_In, in_map. unfold reviews_by.
  apply filter_In. split; [assumption |].
  unfold Django.references. cbn. rewrite wrote, Z.eqb_refl. reflexivity.
Qed.

Lemma integrity_after_delete_review (pk : Z) (db : DB.t) :
  referential_integrity db -> referential_integrity (delete_review pk db).
Proof.
  intros (categories & reviews & comments).
  rewrite delete_review_tables. unfold referential_integrity.
  cbn [DB.categories DB.titles DB.users DB.reviews DB.comments].
  split; [exact categories |]. split; [now apply Forall_kept |].
  apply Forall_forall. intros c kept.
  apply kept_row in kept as (inc & alive).
  rewrite Forall_forall in comments. destruct (comments c inc) as (r & u).
  split; [| exact u]. now apply mem_kept.
Qed.

Lemma integrity_after_delete_title (pk : Z) (db : DB.t) :
  referential_integrity db -> referential_integrity (delete_title pk db).
Proof.
  intros (categories & reviews & comments).
  rewrite delete_title_tables. unfold referential_integrity.
  cbn [DB.categories DB.titles DB.users DB.reviews DB.comments].
  split; [now apply Forall_kept |]. split.
  - apply Forall_forall. intros r kept.
    apply (kept_row Review.id (fun r => Review.title r =? pk)) in kept
      as (inr & alive).
    rewrite Forall_forall in reviews. destruct (reviews r inr) as (t & u).
    split; [| exact u]. apply mem_kept; [exact t |].
    now rewrite mem_singleton.
  - apply Forall_forall. intros c kept.
    apply kept_row in kept as (inc & alive).
    rewrite Forall_forall in comments. destruct (comments c inc) as (r & u).
    split; [| exact u]. now apply mem_kept.
Qed.

Lemma integrity_after_delete_user (pk : Z) (db : DB.t) :
  referential_integrity db -> referential_integrity (delete_user pk db).
Proof.
  intros (categories & reviews & comments).
  rewrite delete_user_tables. unfold referential_integrity.
  cbn [DB.categories DB.titles DB.users DB.reviews DB.comments].
  split; [exact categories |]. split.
  - apply Forall_forall. intros r kept. unfold reviews_by in kept.
    apply kept_row in kept as (inr & alive).
    rewrite Forall_forall in reviews. destruct (reviews r inr) as (t & u).
    split; [exact t |]. now apply mem_kept.
  - apply Forall_forall. intros c kept.
    apply kept_row in kept as (inc & not_author).
    unfold comments_off in inc. apply kept_row in inc as (inc & alive).
    rewrite Forall_forall in comments. destruct (comments c inc) as (r & u).
    split; now apply mem_kept.
Qed.

Lemma integrity_after_delete_category (pk : Z) (db : DB.t) :
  referential_integrity db -> referential_integrity (delete_category pk db).
Proof.
  intros (categories & reviews & comments).
  rewrite delete_category_tables. unfold referential_integrity.
  cbn [DB.categories DB.titles DB.users DB.reviews DB.comments].
  assert (map Title.id
            (map (fun x => if Django.references Title.category [pk] x
                           then Title.set_category None x else x)
                 (DB.titles db))
          = map Title.id (DB.titles db)) as same_ids.
  { rewrite map_map. apply map_ext. intro x.
    now destruct (Django.references Title.category [pk] x). }
  rewrite same_ids. split; [| split; assumption].
  apply Forall_forall. intros x' inx'.
  apply in_map_iff in inx' as (x & <- & inx).
  rewrite Forall_forall in categories. specialize (categories x inx).
  destruct (Django.references Title.category [pk] x) eqn:refs; [exact I |].
  unfold Django.references in refs.
  destruct (Title.category x) as [k |]; [| exact I].
  now apply mem_kept.
Qed.

(** X7. The deletions keep the foreign keys sound: when every category
    of a title, every title and author of a review and every review and
    author of a comment names a row, the same holds after a category, a
    title, a review or a user is deleted. *)
Theorem deletion_keeps_referential_integrity (db : DB.t) (pk : Z) :
  referential_integrity db ->
  referential_integrity (delete_category pk db)
  /\ referential_integrity (delete_title pk db)
  /\ referential_integrity (delete_review pk db)
  /\ referential_integrity (delete_user pk db).
Proof.
  intro sound. split; [| split; [| split]].
  - now apply integrity_after_delete_category.
  - now apply integrity_after_delete_title.
  - now apply integrity_after_delete_review.
  - now apply integrity_after_delete_user.
Qed.

Lemma deletion_keeps_referential_integrity_witness :
  referential_integrity (delete_user 1 Sample.db_reviewed)
  /\ referential_integrity (delete_category 3 Sample.db_reviewed).
Proof.
  assert (referential_integrity Sample.db_reviewed) as sound.
  { unfold referential_integrity. cbn.
    repeat split; repeat constructor. }
  split.
  - apply (deletion_keeps_referential_integrity Sample.db_reviewed 1 sound).
  - apply (deletion_keeps_referential_integrity Sample.db_reviewed 3 sound).
Defined.

(** X8. A deletion only removes: the reviews, comments, users and
    categories afterwards were all there before, unchanged; the genres
    are untouched; and the titles afterwards are titles from before,
    except that deleting a category rewrites the category of the titles
    that referenced it and nothing else of them. *)
Theorem deletion_only_removes (db : DB.t) (pk : Z) :
  (forall db',
      db' = delete_category pk db \/ db' = delete_title pk db
      \/ db' = delete_review pk db \/ db' = delete_user pk db ->
      incl (DB.reviews db') (DB.reviews db)
      /\ incl (DB.comments db') (DB.comments db)
      /\ incl (DB.users db') (DB.users db)
      /\ incl (DB.categories db') (DB.categories db)
      /\ DB.genres db' = DB.genres db)
  /\ incl (DB.titles (delete_title pk db)) (DB.titles db)
  /\ DB.titles (delete_review pk db) = DB.titles db
  /\ DB.titles (delete_user pk db) = DB.titles db
  /\ Forall2 (fun x x' => x' = x \/ x' = Title.set_category None x)
             (DB.titles db) (DB.titles (delete_category pk db)).
Proof.
  split; [| split; [| split; [| split]]].
  - intros db' [-> | [-> | [-> | ->]]].
    + rewrite delete_category_tables.
      cbn [DB.categories DB.genres DB.users DB.reviews DB.comments].
      repeat split; try apply incl_refl. apply incl_filter.
    + rewrite delete_title_tables.
      cbn [DB.categories DB.genres DB.users DB.reviews DB.comments].
      repeat split; try apply incl_refl; apply incl_filter.
    + rewrite delete_review_tables.
      cbn [DB.categories DB.genres DB.users DB.reviews DB.comments].
      repeat split; try apply incl_refl; apply incl_filter.
    + rewrite delete_user_tables.
      cbn [DB.categories DB.genres DB.users DB.reviews DB.comments].
      repeat split; try apply incl_refl; try apply incl_filter.
      eapply incl_tran; [apply incl_filter |].
      unfold comments_off. apply incl_filter.
  - rewrite delete_title_tables. apply incl_filter.
  - reflexivity.
  - reflexivity.
  - rewrite delete_category_tables. cbn [DB.titles].
    induction (DB.titles db) as [| x titles IH]; [constructor |].
    cbn [map]. constructor; [| exact IH].
    destruct (Django.references Title.category [pk] x); auto.
Qed.

Lemma deletion_only_removes_witness :
  incl (DB.comments (delete_user 1 Sample.db_reviewed))
       (DB.comments Sample.db_reviewed).
Proof.
  apply (proj1 (deletion_only_removes Sample.db_reviewed 1)
           (delete_user 1 Sample.db_reviewed)).
  auto.
Defined.

Lemma delete_review_absent (pk : Z) (db : DB.t) :
  Forall (fun r => Review.id r <> pk) (DB.reviews db) ->
  Forall (fun c => Comment.review c <> pk) (DB.comments db) ->
  delete_review pk db = db.
Proof.
  intros no_review no_comment. rewrite delete_review_tables.
  rewrite (filter_none_on (Django.references _ [pk])).
  2:{ eapply Forall_impl; [| exact no_comment].
      intros c differ. now apply references_singleton; congruence. }
  cbn [map]. rewrite (filter_all_on _ (DB.comments db)).
  2:{ apply Forall_forall. reflexivity. }
  rewrite filter_all_on; [now destruct db |].
  eapply Forall_impl; [| exact no_review].
  intros r differ. rewrite mem_singleton.
  now apply negb_true_iff, Z.eqb_neq.
Qed.

Lemma delete_title_absent (pk : Z) (db : DB.t) :
  Forall (fun x => Title.id x <> pk) (DB.titles db) ->
  Forall (fun r => Review.title r <> pk) (DB.reviews db) ->
  delete_title pk db = db.
Proof.
  intros no_title no_review. rewrite delete_title_tables.
  assert (reviews_of db pk = []) as none.
  { unfold reviews_of. apply filter_none_on.
    eapply Forall_impl; [| exact no_review].
    intros r differ. now apply Z.eqb_neq. }
  rewrite none. cbn [map].
  rewrite (filter_none (Django.references _ [])) by reflexivity.
  cbn [map]. rewrite (filter_all _ (DB.comments db)) by reflexivity.
  rewrite (filter_all _ (DB.reviews db)) by reflexivity.
  rewrite filter_all_on; [now destruct db |].
  eapply Forall_impl; [| exact no_title].
  intros x differ. rewrite mem_singleton.
  now apply negb_true_iff, Z.eqb_neq.
Qed.

Lemma delete_user_absent (pk : Z) (db : DB.t) :
  Forall (fun u => User.id u <> pk) (DB.users db) ->
  Forall (fun r => Review.author r <> pk) (DB.reviews db) ->
  Forall (fun c => Comment.author c <> pk) (DB.comments db) ->
  delete_user pk db = db.
Proof.
  intros no_user no_review no_comment. rewrite delete_user_tables.
  assert (reviews_by db pk = []) as none.
  { unfold reviews_by. apply filter_none_on.
    eapply Forall_impl; [| exact no_review].
    intros r differ. apply references_singleton. congruence. }
  rewrite none. cbn [map].
  assert (comments_off db [] = DB.comments db) as same.
  { unfold comments_off.
    rewrite (filter_none (Django.references _ [])) by reflexivity.
    cbn [map]. now rewrite filter_all by reflexivity. }
  rewrite same.
  rewrite (filter_none_on (Django.references _ [pk])).
  2:{ eapply Forall_impl; [| exact no_comment].
      intros c differ. apply references_singleton. congruence. }
  cbn [map]. rewrite (filter_all _ (DB.comments db)) by reflexivity.
  rewrite (filter_all _ (DB.reviews db)) by reflexivity.
  rewrite filter_all_on; [now destruct db |].
  eapply Forall_impl; [| exact no_user].
  intros u differ. rewrite mem_singleton.
  now apply negb_true_iff, Z.eqb_neq.
Qed.

Lemma map_same {A} (f : A -> A) (l : list A) :
  Forall (fun x => f x = x) l -> map f l = l.
Proof.
  induction 1 as [| x l fx _ IH]; [reflexivity |].
  cbn [map]. now rewrite fx, IH.
Qed.

Lemma delete_category_absent (pk : Z) (db : DB.t) :
  Forall (fun c => Category.id c <> pk) (DB.categories db) ->
  Forall (fun x => Title.category x <> Some pk) (DB.titles db) ->
  delete_category pk db = db.
Proof.
  intros no_category no_title. rewrite delete_category_tables.
  rewrite map_same.
  2:{ eapply Forall_impl; [| exact no_title].
      intros x differ. apply references_singleton in differ.
      now rewrite differ. }
  rewrite filter_all_on; [now destruct db |].
  eapply Forall_impl; [| exact no_category].
  intros c differ. rewrite mem_singleton.
  now apply negb_true_iff, Z.eqb_neq.
Qed.

(** X9. Deleting by a key that no row has and no row references changes
    nothing. *)
Theorem deleting_an_absent_key_changes_nothing (db : DB.t) (pk : Z) :
  (Forall (fun c => Category.id c <> pk) (DB.categories db) ->
   Forall (fun x => Title.category x <> Some pk) (DB.titles db) ->
   delete_category pk db = db)
  /\ (Forall (fun x => Title.id x <> pk) (DB.titles db) ->
      Forall (fun r => Review.title r <> pk) (DB.reviews db) ->
      delete_title pk db = db)
  /\ (Forall (fun r => Review.id r <> pk) (DB.reviews db) ->
      Forall (fun c => Comment.review c <> pk) (DB.comments db) ->
      delete_review pk db = db)
  /\ (Forall (fun u => User.id u <> pk) (DB.users db) ->
      Forall (fun r => Review.author r <> pk) (DB.reviews db) ->
      Forall (fun c => Comment.author c <> pk) (DB.comments db) ->
      delete_user pk db = db).
Proof.
  split; [| split; [| split]].
  - apply delete_category_absent.
  - apply delete_title_absent.
  - apply delete_review_absent.
  - apply delete_user_absent.
Qed.

Lemma deleting_an_absent_key_changes_nothing_witness :
  delete_review 5 Sample.db_reviewed = Sample.db_reviewed
  /\ delete_user 5 Sample.db_reviewed = Sample.db_reviewed.
Proof.
  split.
  - apply (deleting_an_absent_key_changes_nothing Sample.db_reviewed 5);
      repeat constructor; discriminate.
  - apply (deleting_an_absent_key_changes_nothing Sample.db_reviewed 5);
      repeat constructor; discriminate.
Defined.

Lemma Forall_not_mem_singleton {A} (f : A -> Z) (pk : Z) (l : list A) :
  Forall (fun x => f x <> pk)
         (filter (fun x => negb (mem (f x) [pk])) l).
Proof.
  apply Forall_forall. intros x kept. apply filter_In in kept as (_ & alive).
  rewrite mem_singleton in alive. now apply negb_true_iff, Z.eqb_neq in alive.
Qed.

(** X10. Deleting twice is deleting once, for a category, a title, a
    review and a user. *)
Theorem deletion_is_idempotent (db : DB.t) (pk : Z) :
  delete_category pk (delete_category pk db) = delete_category pk db
  /\ delete_title pk (delete_title pk db) = delete_title pk db
  /\ delete_review pk (delete_review pk db) = delete_review pk db
  /\ delete_user pk (delete_user pk db) = delete_user pk db.
Proof.
  split; [| split; [| split]].
  - apply delete_category_absent.
    + rewrite delete_category_tables. apply Forall_not_mem_singleton.
    + rewrite delete_category_titles. apply Forall_forall. intros x' inx'.
      apply in_map_iff in inx' as (x & <- & _).
      destruct (Django.references Title.category [pk] x) eqn:refs;
        [discriminate |].
      now apply references_singleton in refs.
  - apply delete_title_absent.
    + rewrite delete_title_tables. apply Forall_not_mem_singleton.
    + rewrite delete_title_tables. cbn [DB.reviews]. unfold reviews_of.
      eapply Forall_impl;
        [| apply (cascade_leaves_none Review.id
                    (fun r => Review.title r =? pk))].
      cbn. intros r. apply Z.eqb_neq.
  - apply delete_review_absent.
    + rewrite delete_review_tables. apply Forall_not_mem_singleton.
    + rewrite delete_review_tables. cbn [DB.comments].
      eapply Forall_impl;
        [| apply (cascade_leaves_none Comment.id
                    (Django.references (fun c => Some (Comment.review c))
                       [pk]))].
      intros c refs. apply references_singleton in refs. congruence.
  - apply delete_user_absent.
    + rewrite delete_user_tables. apply Forall_not_mem_singleton.
    + rewrite delete_user_tables. cbn [DB.reviews]. unfold reviews_by.
      eapply Forall_impl;
        [| apply (cascade_leaves_none Review.id
                    (Django.references (fun r => Some (Review.author r))
                       [pk]))].
      intros r refs. apply references_singleton in refs. congruence.
    + rewrite delete_user_tables. cbn [DB.comments].
      eapply Forall_impl;
        [| apply (cascade_leaves_none Comment.id
                    (Django.references (fun c => Some (Comment.author c))
                       [pk]))].
      intros c refs. apply references_singleton in refs. congruence.
Qed.

(* ================================================================== *)
(** ** ReviewSerializer: what it reads and what it requires *)

(** X11. Of the request data, the review serializer reads the text and
    the score and nothing else: two requests with the same method, user
    and route that agree on the two keys validate alike, and valid data
    holds no other key (no [id], no [pub_date], no [author], no
    [title]). *)
Theorem review_reads_text_and_score_only (now : Z) (db : DB.t) :
  (forall r1 r2,
      method r1 = method r2 -> user r1 = user r2 -> kwargs r1 = kwargs r2 ->
      get "text" (data r1) = get "text" (data r2) ->
      get "score" (data r1) = get "score" (data r2) ->
      ReviewSerializer.is_valid now r1 db = ReviewSerializer.is_valid now r2 db)
  /\ (forall request vd k,
         ReviewSerializer.is_valid now request db = Ok vd ->
         k <> "text" -> k <> "score" -> get k vd = None).
Proof.
  split.
  - intros r1 r2 same_method same_user same_kwargs same_text same_score.
    unfold ReviewSerializer.is_valid, Drf.Serializer_run_validation,
      Drf.Serializer_to_internal_value.
    change (Drf.writable_fields (ReviewSerializer.serializer r1 db))
      with [ReviewSerializer.text; ReviewSerializer.score].
    change (Drf.writable_fields (ReviewSerializer.serializer r2 db))
      with [ReviewSerializer.text; ReviewSerializer.score].
    cbn [Drf.methods Drf.Meta_validators Drf.validate
         ReviewSerializer.serializer].
    rewrite same_method.
    rewrite (fields_to_internal_value_ext _ _ _ _ (data r1) (data r2)).
    2:{ intros f [<- | [<- | []]]; assumption. }
    destruct (Drf.fields_to_internal_value _ _ _ _ _ _ _) as [value |];
      [| reflexivity].
    cbn [bind Drf.run_class_validators].
    replace (ReviewSerializer.validate r1 db value)
      with (ReviewSerializer.validate r2 db value); [reflexivity |].
    unfold ReviewSerializer.validate.
    now rewrite same_method, same_user, same_kwargs.
  - intros request vd k valid not_text not_score.
    apply is_valid_to_internal_value in valid.
    eapply fields_to_internal_value_keys; [exact valid | reflexivity |].
    intros f [<- | [<- | []]]; cbn; congruence.
Qed.

Lemma review_reads_text_and_score_only_witness :
  ReviewSerializer.is_valid 2024
    (Sample.request "POST"
       [("id", Int 99); ("text", Str "fine"); ("pub_date", Str "1970");
        ("score", Int 7)])
    Sample.db
  = ReviewSerializer.is_valid 2024
      (Sample.request "POST" [("text", Str "fine"); ("score", Int 7)])
      Sample.db.
Proof.
  apply (review_reads_text_and_score_only 2024 Sample.db); reflexivity.
Defined.

(** The score field raises nothing but validation errors, unless the
    score is an explicit null. *)
Lemma validate_score_field_outcome (now : Z) (partial : bool) (data : dict) :
  get "score" data <> Some None_ ->
  (exists v, Drf.validate_field now partial ReviewSerializer.methods
               ReviewSerializer.score data = Ok v)
  \/ (exists d, Drf.validate_field now partial ReviewSerializer.methods
                  ReviewSerializer.score data = Raise (ValidationError d)).
Proof.
  intro not_null. rewrite validate_score_field.
  destruct (get "score" data) as [v |];
    [| destruct partial; left; eexists; reflexivity].
  assert (Drf.Field_run_validation now partial ReviewSerializer.score (Some v)
          = match Drf.find_choice (str v)
                    (Drf.choice_strings_to_values SCORE_CHOICES) with
            | Some key =>
                _ <- Drf.run_validators now
                       (Drf.validators ReviewSerializer.score) (Int key) [] ;;
                Ok (Drf.Value (Int key))
            | None => Raise (ValidationError (Msg "invalid_choice"))
            end) as run.
  { destruct v as [| b | n | s]; [congruence | | |];
      unfold Drf.Field_run_validation;
      change (Drf.read_only ReviewSerializer.score) with false;
      cbv iota;
      change (Drf.blank_check ReviewSerializer.score _)
        with (@None (result Drf.validated));
      cbv iota; unfold Drf.Field_to_internal_value;
      change (Drf.kind ReviewSerializer.score)
        with (Drf.ChoiceField SCORE_CHOICES);
      cbv iota;
      destruct (Drf.find_choice _ _); reflexivity. }
  rewrite run.
  destruct (Drf.find_choice _ _) as [key |]; [| right; eexists; reflexivity].
  change (Drf.validators ReviewSerializer.score)
    with [Django.MaxValueValidator 10 "Максимальная оценка - 10";
          Django.MinValueValidator 1 "Минимальная оценка - 1"].
  cbn [Drf.run_validators Django.call]. unfold gt, lt. cbn [as_number bind].
  destruct (10 <? key) eqn:high, (key <? 1) eqn:low; cbn [app bind];
    try (right; eexists; reflexivity).
  rewrite validate_score_int, low, high. left. eexists. reflexivity.
Qed.

(** X12. A review needs a text unless the update is partial: a request
    other than a [PATCH] without a text, or with a text of white space
    only, is never valid, and is rejected with a validation error unless
    its score is an explicit null; a [PATCH] may leave out both the text
    and the score. *)
Theorem review_text_is_required (now : Z) (request : Request) (db : DB.t) :
  (method request <> "PATCH" ->
   get "text" (data request) = None
   \/ (exists s, get "text" (data request) = Some (Str s) /\ strip s = "") ->
   (exists e, ReviewSerializer.is_valid now request db = Raise e)
   /\ (get "score" (data request) <> Some None_ ->
       exists d,
         ReviewSerializer.is_valid now request db = Raise (ValidationError d)))
  /\ (method request = "PATCH" ->
      get "text" (data request) = None ->
      get "score" (data request) = None ->
      ReviewSerializer.is_valid now request db = Ok []).
Proof.
  split.
  - intros full no_text.
    unfold ReviewSerializer.is_valid, Drf.Serializer_run_validation,
      Drf.Serializer_to_internal_value.
    change (Drf.writable_fields (ReviewSerializer.serializer request db))
      with [ReviewSerializer.text; ReviewSerializer.score].
    change (Drf.methods (ReviewSerializer.serializer request db))
      with ReviewSerializer.methods.
    apply String.eqb_neq in full. rewrite full.
    cbn [Drf.fields_to_internal_value].
    assert (exists d,
               Drf.validate_field now false ReviewSerializer.methods
                 ReviewSerializer.text (data request)
               = Raise (ValidationError d)) as (d & text).
    { unfold Drf.validate_field.
      change (Drf.field_name ReviewSerializer.text) with "text".
      destruct no_text as [-> | (s & -> & blank)].
      - eexists. reflexivity.
      - unfold Drf.Field_run_validation, Drf.blank_check.
        change (Drf.read_only ReviewSerializer.text) with false.
        change (Drf.kind ReviewSerializer.text) with (Drf.CharField false).
        cbn [str]. rewrite blank. eexists. reflexivity. }
    rewrite text. cbn [app].
    split.
    + destruct (Drf.validate_field now false ReviewSerializer.methods
                  ReviewSerializer.score (data request))
        as [[| v] | [d' | | | | | |]];
        cbn [app bind]; eexists; reflexivity.
    + intro not_null.
      destruct (validate_score_field_outcome now false (data request)
                  not_null) as [(v & ->) | (d' & ->)].
      * destruct v; cbn [app bind]; eexists; reflexivity.
      * cbn [app bind]. eexists. reflexivity.
  - intros patch no_text no_score.
    unfold ReviewSerializer.is_valid, Drf.Serializer_run_validation,
      Drf.Serializer_to_internal_value.
    change (Drf.writable_fields (ReviewSerializer.serializer request db))
      with [ReviewSerializer.text; ReviewSerializer.score].
    change (Drf.methods (ReviewSerializer.serializer request db))
      with ReviewSerializer.methods.
    rewrite patch. cbn [String.eqb Ascii.eqb Bool.eqb].
    cbn [Drf.fields_to_internal_value]. unfold Drf.validate_field.
    change (Drf.field_name ReviewSerializer.text) with "text".
    change (Drf.field_name ReviewSerializer.score) with "score".
    rewrite no_text, no_score.
    cbn [Drf.Field_run_validation bind]. cbn.
    unfold ReviewSerializer.validate. rewrite patch. reflexivity.
Qed.

Lemma review_text_is_required_witness :
  (exists d,
      ReviewSerializer.is_valid 2024
        (Sample.request "POST" [("score", Int 7)]) Sample.db
      = Raise (ValidationError d))
  /\ ReviewSerializer.is_valid 2024 (Sample.request "PATCH" [])
       Sample.db_reviewed
     = Ok [].
Proof.
  split.
  - apply (review_text_is_required 2024
             (Sample.request "POST" [("score", Int 7)]) Sample.db);
      [discriminate | left; reflexivity | discriminate].
  - apply (review_text_is_required 2024 (Sample.request "PATCH" [])
             Sample.db_reviewed); reflexivity.
Defined.

(* ================================================================== *)
(** ** CommentSerializer and TokenSerializer *)










(* ================================================================== *)
(** ** Slugs of categories and genres *)

















(* ================================================================== *)
(** ** TitleSerializer: the category, and name with year once more *)

Lemma find_category (s : string) (categories : list Category.t) :
  find (fun row => eqb (Str s) (fst row))
       (map (fun c => (Str (Category.slug c), Category.id c)) categories)
  = option_map (fun c => (Str (Category.slug c), Category.id c))
      (find (fun c => String.eqb s (Category.slug c)) categories).
Proof.
  induction categories as [| c categories IH]; [reflexivity |].
  cbn [map find fst eqb as_number].
  destruct (String.eqb s (Category.slug c)); [reflexivity | exact IH].
Qed.

Lemma validate_category_field (now : Z) (partial : bool) (db : DB.t)
    (data : dict) :
  Drf.validate_field now partial (TitleSerializer.methods now)
    (TitleSerializer.category db) data
  = Drf.Field_run_validation now partial (TitleSerializer.category db)
      (get "category" data).
Proof.
  unfold Drf.validate_field.
  change (Drf.field_name (TitleSerializer.category db)) with "category".
  change (Drf.getattr (TitleSerializer.methods now)
            ("validate_" ++ "category"))
    with (@None Drf.method).
  destruct (Drf.Field_run_validation _ _ _ _) as [[| v] |]; reflexivity.
Qed.

Lemma category_field_str (now : Z) (partial : bool) (db : DB.t) (s : string) :
  Drf.Field_run_validation now partial (TitleSerializer.category db)
    (Some (Str s))
  = match find (fun c => String.eqb s (Category.slug c)) (DB.categories db)
    with
    | Some c => Ok (Drf.Value (Int (Category.id c)))
    | None => Raise (ValidationError (Msg "does_not_exist"))
    end.
Proof.
  unfold Drf.Field_run_validation, Drf.blank_check,
    Drf.Field_to_internal_value.
  cbn [TitleSerializer.category Drf.read_only Drf.kind Drf.validators].
  rewrite find_category.
  now destruct (find _ (DB.categories db)).
Qed.

Lemma same_slug_same_category (categories : list Category.t)
    (c c' : Category.t) :
  NoDup (map Category.slug categories) ->
  In c categories -> In c' categories ->
  Category.slug c = Category.slug c' -> c = c'.
Proof.
  induction categories as [| x categories IH]; [intros _ [] |].
  cbn [map]. intros unique inc inc' same.
  apply NoDup_cons_iff in unique as (fresh & unique).
  destruct inc as [<- | inc], inc' as [<- | inc'].
  - reflexivity.
  - destruct fresh. rewrite same. now apply in_map.
  - destruct fresh. rewrite <- same. now apply in_map.
  - now apply IH.
Qed.

(** X17. Through the write representation the category of a title is
    given by slug and must exist: where slugs are unique, as the column
    is, the slug of a category resolves to the key of that category; a
    slug that no category has, a null, and on a full write a missing
    category are rejected with a validation error; and once the
    categories with a slug are deleted the slug no longer resolves. *)
Theorem title_category_must_exist (now : Z) (partial : bool) (db : DB.t)
    (data : dict) :
  (forall s,
      get "category" data = Some (Str s) ->
      (forall c,
          In c (DB.categories db) -> Category.slug c = s -> s <> "" ->
          NoDup (map Category.slug (DB.categories db)) ->
          Drf.validate_field now partial (TitleSerializer.methods now)
            (TitleSerializer.category db) data
          = Ok (Drf.Value (Int (Category.id c))))
      /\ (Forall (fun c => Category.slug c <> s) (DB.categories db) ->
          exists d,
            Drf.validate_field now partial (TitleSerializer.methods now)
              (TitleSerializer.category db) data
            = Raise (ValidationError d))
      /\ (forall pk,
             Forall (fun c => Category.slug c = s -> Category.id c = pk)
                    (DB.categories db) ->
             exists d,
               Drf.validate_field now partial (TitleSerializer.methods now)
                 (TitleSerializer.category (delete_category pk db)) data
               = Raise (ValidationError d)))
  /\ (get "category" data = Some None_ ->
      exists d,
        Drf.validate_field now partial (TitleSerializer.methods now)
          (TitleSerializer.category db) data
        = Raise (ValidationError d))
  /\ (get "category" data = None -> partial = false ->
      exists d,
        Drf.validate_field now partial (TitleSerializer.methods now)
          (TitleSerializer.category db) data
        = Raise (ValidationError d)).
Proof.
  assert (forall db' s,
             Forall (fun c => Category.slug c <> s) (DB.categories db') ->
             find (fun c => String.eqb s (Category.slug c))
                  (DB.categories db') = None) as unresolved.
  { intros db' s none.
    destruct (find _ (DB.categories db')) as [c |] eqn:found;
      [| reflexivity].
    apply find_some in found as (inc & same). apply String.eqb_eq in same.
    rewrite Forall_forall in none. now destruct (none c inc). }
  split; [| split].
  - intros s given. split; [| split].
    + intros c inc same _ unique.
      rewrite validate_category_field, given, category_field_str.
      destruct (find _ (DB.categories db)) as [c' |] eqn:found.
      * apply find_some in found as (inc' & same').
        apply String.eqb_eq in same'.
        now rewrite (same_slug_same_category _ c c' unique inc inc')
          by congruence.
      * apply (find_none _ _ found) in inc.
        apply String.eqb_neq in inc. congruence.
    + intro none.
      rewrite validate_category_field, given, category_field_str,
        (unresolved db s none).
      eexists. reflexivity.
    + intros pk only.
      rewrite validate_category_field, given, category_field_str,
        (unresolved (delete_category pk db) s).
      * eexists. reflexivity.
      * rewrite delete_category_tables. cbn [DB.categories].
        apply Forall_forall. intros c kept.
        apply filter_In in kept as (inc & alive).
        rewrite mem_singleton in alive.
        apply negb_true_iff, Z.eqb_neq in alive.
        rewrite Forall_forall in only. intro same.
        now apply alive, only.
  - intro null. rewrite validate_category_field, null.
    eexists. reflexivity.
  - intros absent ->. rewrite validate_category_field, absent.
    eexists. reflexivity.
Qed.

Lemma title_category_must_exist_witness :
  Drf.validate_field 2024 false (TitleSerializer.methods 2024)
    (TitleSerializer.category Sample.db)
    [("name", Str "Ran"); ("category", Str "drama")]
  = Ok (Drf.Value (Int 3))
  /\ (exists d,
         Drf.validate_field 2024 false (TitleSerializer.methods 2024)
           (TitleSerializer.category (delete_category 3 Sample.db))
           [("name", Str "Ran"); ("category", Str "drama")]
         = Raise (ValidationError d)).
Proof.
  destruct (title_category_must_exist 2024 false Sample.db
              [("name", Str "Ran"); ("category", Str "drama")])
    as (by_slug & _).
  destruct (by_slug "drama" eq_refl) as (resolves & _ & deleted).
  split.
  - apply (resolves Sample.drama); try reflexivity.
    + left. reflexivity.
    + discriminate.
    + repeat constructor. intros [].
  - apply deleted. repeat constructor.
Defined.

(** X18. The check of name and year together rejects nothing else: when
    no title other than the one being updated has the name and the year,
    the class validator passes. *)
Theorem name_and_year_not_in_use_passes (db : DB.t)
    (instance : option Title.t) (attrs : dict) (name : string) (year : Z) :
  Drf.attr_or_instance Title.getattr instance "name" attrs = Some (Str name) ->
  Drf.attr_or_instance Title.getattr instance "year" attrs = Some (Int year) ->
  Forall (fun x => (exists i, instance = Some i /\ Title.id x = Title.id i)
                   \/ Title.name x <> name \/ Title.year x <> year)
         (DB.titles db) ->
  Drf.run_class_validators (TitleSerializer.Meta_validators db instance)
    attrs []
  = Ok tt.
Proof.
  intros given_name given_year free.
  unfold TitleSerializer.Meta_validators.
  cbn [Drf.run_class_validators]. unfold Drf.UniqueTogetherValidator.
  cbn [Drf.filter_kwargs]. rewrite given_name, given_year.
  set (agree := fun row : Title.t => forallb _ _).
  assert (forall x, agree x = true ->
                    Title.name x = name /\ Title.year x = year) as agrees.
  { intros x. unfold agree. cbn [forallb fst snd]. unfold Title.getattr.
    cbn [String.eqb Ascii.eqb Bool.eqb eqb as_number].
    rewrite andb_true_r, andb_true_iff, String.eqb_eq, Z.eqb_eq. tauto. }
  assert (match instance with
          | Some i => filter (fun row => negb (Title.id row =? Title.id i))
                        (filter agree (DB.titles db))
          | None => filter agree (DB.titles db)
          end = []) as ->; [| reflexivity].
  destruct instance as [i |].
  - apply filter_none_on, Forall_forall. intros x inx.
    apply filter_In in inx as (inx & ag). apply agrees in ag as (n & y).
    rewrite Forall_forall in free.
    destruct (free x inx) as [(i' & [= <-] & same) | [differ | differ]];
      try contradiction.
    rewrite same, Z.eqb_refl. reflexivity.
  - apply filter_none_on. eapply Forall_impl; [| exact free].
    intros x [(i & no & _) | differ]; [discriminate no |].
    destruct (agree x) eqn:ag; [| reflexivity].
    apply agrees in ag. tauto.
Qed.

Lemma name_and_year_not_in_use_passes_witness :
  Drf.run_class_validators
    (TitleSerializer.Meta_validators Sample.db (Some Sample.dune))
    [("description", Str "A desert planet.")] []
  = Ok tt.
Proof.
  apply (name_and_year_not_in_use_passes Sample.db (Some Sample.dune) _
           "Dune" 1965); try reflexivity.
  apply Forall_cons;
    [left; exists Sample.dune; split; reflexivity |].
  apply Forall_cons; [right; left; discriminate |].
  apply Forall_cons; [right; right; discriminate |].
  apply Forall_nil.
Defined.

(* ================================================================== *)
(** ** The rating: bounds, order, other titles *)

Lemma sum_bounds (lo hi : Z) (values : list Z) :
  Forall (fun n => lo <= n <= hi) values ->
  lo * Z.of_nat (List.length values) <= Django.sum values
  <= hi * Z.of_nat (List.length values).
Proof.
  induction 1 as [| n values range _ IH]; [cbn; lia |].
  cbn [Django.sum fold_right List.length]. fold (Django.sum values).
  rewrite Nat2Z.inj_succ. lia.
Qed.

(** X19. When the scores of the reviews of a title lie in 1..10, as
    validation leaves them, so does the rating. *)
Theorem rating_is_within_the_scores (db : DB.t) (obj : Title.t) (q : Q) :
  Forall (fun n => 1 <= n <= 10) (scores_of db (Title.id obj)) ->
  TitleReadSerializer.get_rating db obj = Some q ->
  (1 <= q /\ q <= 10)%Q.
Proof.
  unfold TitleReadSerializer.get_rating, Django.Avg.
  fold (reviews_of db (Title.id obj)). fold (scores_of db (Title.id obj)).
  intros range rating. apply (sum_bounds 1 10) in range.
  destruct (scores_of db (Title.id obj)) as [| x values] eqn:scores;
    [discriminate |].
  match type of rating with
  | Some ?mean = _ => replace q with mean by congruence
  end.
  rewrite Qred_correct. unfold Qle. cbn [Qnum Qden].
  rewrite of_nat_length_pos. lia.
Qed.

Lemma rating_is_within_the_scores_witness :
  (1 <= 9 /\ 9 <= 10)%Q.
Proof.
  apply (rating_is_within_the_scores Sample.db_reviewed Sample.dune 9).
  - repeat constructor; cbn; lia.
  - reflexivity.
Defined.

Lemma reviews_of_permutation (table table' : list Review.t) (pk : Z) :
  Permutation table table' ->
  Permutation (filter (fun r => Review.title r =? pk) table)
              (filter (fun r => Review.title r =? pk) table').
Proof.
  induction 1 as [| r l l' _ IH | r r' l | l l' l'' _ IH _ IH'].
  - constructor.
  - cbn [filter]. destruct (Review.title r =? pk); [now constructor | exact IH].
  - cbn [filter].
    destruct (Review.title r =? pk), (Review.title r' =? pk);
      try apply Permutation_refl.
    apply perm_swap.
  - now transitivity (filter (fun r => Review.title r =? pk) l').
Qed.

Lemma sum_permutation (values values' : list Z) :
  Permutation values values' -> Django.sum values = Django.sum values'.
Proof.
  induction 1 as [| n l l' _ IH | n m l | l l' l'' _ IH _ IH'];
    cbn [Django.sum fold_right] in *; try lia.
  fold (Django.sum l) in *. fold (Django.sum l') in *. lia.
Qed.

(** X20. The rating does not depend on the order of the reviews in the
    table. *)
Theorem rating_ignores_the_order_of_reviews (db db' : DB.t) (obj : Title.t) :
  Permutation (DB.reviews db) (DB.reviews db') ->
  TitleReadSerializer.get_rating db obj
  = TitleReadSerializer.get_rating db' obj.
Proof.
  intro same. unfold TitleReadSerializer.get_rating, Django.Avg.
  assert (Permutation
            (Django.not_null
               (map Review.score
                  (filter (fun r => Review.title r =? Title.id obj)
                          (DB.reviews db))))
            (Django.not_null
               (map Review.score
                  (filter (fun r => Review.title r =? Title.id obj)
                          (DB.reviews db'))))) as scores.
  { unfold Django.not_null. apply Permutation_flat_map, Permutation_map.
    now apply reviews_of_permutation. }
  pose proof (sum_permutation _ _ scores) as sums.
  pose proof (Permutation_length scores) as lengths.
  destruct (Django.not_null _) as [| x values];
    destruct (Django.not_null _) as [| x' values'];
    try discriminate lengths; [reflexivity |].
  now rewrite sums, lengths.
Qed.

Lemma rating_ignores_the_order_of_reviews_witness :
  TitleReadSerializer.get_rating Sample.db_reviewed Sample.dune
  = TitleReadSerializer.get_rating
      (DB.with_reviews [Sample.review 2 7 2 (Some 10);
                        Sample.review 1 7 1 (Some 8)]
         Sample.db_reviewed)
      Sample.dune.
Proof.
  apply rating_ignores_the_order_of_reviews. apply perm_swap.
Defined.




(* ================================================================== *)
(** ** Inserting a review *)



(* ================================================================== *)
(** ** Usernames are unique *)



